(** * The Plant resource of [server/app.py]: validator and CRUD controller

    A shallow embedding of [validate_plant_data] and of the two resources
    [Plants] and [PlantByID] of [src/server/app.py], followed by the
    properties of the specification that were checked against them.

    Conventions.
    - A decoded JSON body is a Python object: [value].
    - A Python [dict] with string keys is a [gmap string _]; neither the
      order of the keys nor duplicates are observable in the program.
    - A Python [str] is a [string]; its characters are the code points
      below 256.
    - A statement that can raise returns a [result]; the handlers return
      the new content of the table together with the response, or with the
      exception that left the handler. *)

From Stdlib Require Import ZArith Ascii String DecimalString.
From Stdlib Require QArith_base.
From stdpp Require Import gmap strings list fin_maps.

Set Warnings "-register-all".

(** ** Python objects *)

Inductive value : Type :=
| VNone
| VBool (b : bool)
| VInt (z : Z)
| VFloat (q : QArith_base.Q)
| VStr (s : string)
| VList (l : list value)
| VDict (m : gmap string value).

Inductive exn : Type :=
| AttributeError
| TypeError
| KeyError
| IntegrityError.

Inductive result (A : Type) : Type :=
| Ok (a : A)
| Raise (e : exn).

Arguments Ok {A} a.
Arguments Raise {A} e.

(** Sequencing of statements that can raise. *)
Definition bind {A B : Type} (r : result A) (f : A → result B) : result B :=
  match r with
  | Ok a => f a
  | Raise e => Raise e
  end.

Notation "'let!' x ':=' r 'in' k" := (bind r (λ x, k))
  (at level 10, x name, r at level 100, k at level 200).

(** [bool(v)], as used by [if not data]. *)
Definition truthy (v : value) : bool :=
  match v with
  | VNone => false
  | VBool b => b
  | VInt z => negb (z =? 0)%Z
  | VFloat q => negb (QArith_base.Qnum q =? 0)%Z
  | VStr s => negb (String.length s =? 0)%nat
  | VList l => negb (length l =? 0)%nat
  | VDict m => negb (size m =? 0)%nat
  end.

(** [k in s] on two strings: [k] occurs in [s]. *)
Fixpoint occurs_in (k s : string) : bool :=
  String.prefix k s ||
  match s with
  | EmptyString => false
  | String _ s' => occurs_in k s'
  end.

(** ['literal' == v]. *)
Definition str_eq (k : string) (v : value) : bool :=
  match v with
  | VStr s => bool_decide (s = k)
  | _ => false
  end.

(** [k in data] for a string [k]: key of a dict, element of a list,
    substring of a string; any other object is not a container. *)
Definition contains (data : value) (k : string) : result bool :=
  match data with
  | VDict m => Ok (bool_decide (is_Some (m !! k)))
  | VList l => Ok (existsb (str_eq k) l)
  | VStr s => Ok (occurs_in k s)
  | _ => Raise TypeError
  end.

(** [data.get(k, dflt)]: only a dict has the method. *)
Definition dict_get (data : value) (k : string) (dflt : value) : result value :=
  match data with
  | VDict m => Ok (default dflt (m !! k))
  | _ => Raise AttributeError
  end.

(** [data[k]] for a string [k]. *)
Definition subscript (data : value) (k : string) : result value :=
  match data with
  | VDict m =>
      match m !! k with
      | Some v => Ok v
      | None => Raise KeyError
      end
  | _ => Raise TypeError
  end.

(** [str.isspace] on the code points below 256. *)
Definition isspace (c : ascii) : bool :=
  let n := nat_of_ascii c in
  ((9 <=? n) && (n <=? 13)) || ((28 <=? n) && (n <=? 32))
  || (n =? 133) || (n =? 160).

Fixpoint lstrip (s : string) : string :=
  match s with
  | EmptyString => EmptyString
  | String c s' => if isspace c then lstrip s' else s
  end.

Fixpoint rstrip (s : string) : string :=
  match s with
  | EmptyString => EmptyString
  | String c s' =>
      match rstrip s' with
      | EmptyString => if isspace c then EmptyString else String c EmptyString
      | r => String c r
      end
  end.

Definition strip (s : string) : string := rstrip (lstrip s).

(** [v.strip()]: only a string has the method. *)
Definition str_strip (v : value) : result string :=
  match v with
  | VStr s => Ok (strip s)
  | _ => Raise AttributeError
  end.

(** [isinstance(v, (int, float))]; [bool] is a subclass of [int]. *)
Definition isinstance_int_float (v : value) : bool :=
  match v with
  | VBool _ | VInt _ | VFloat _ => true
  | _ => false
  end.

Definition is_str (v : value) : bool :=
  match v with
  | VStr _ => true
  | _ => false
  end.

(** ** Validator: [validate_plant_data] (lines 34-50) *)

Definition required_fields : list string := ["name"; "image"; "price"].

(** The loop of lines 40-42. *)
Fixpoint check_required (data : value) (fields : list string)
    (errors : gmap string string) : result (gmap string string) :=
  match fields with
  | [] => Ok errors
  | field :: rest =>
      let! present := contains data field in
      check_required data rest
        (if present then errors
         else <[field := "This field is required"]> errors)
  end.

Definition validate_plant_data (data : value) (partial : bool)
    : result (option (gmap string string)) :=
  let! errors :=
    if partial then Ok ∅ else check_required data required_fields ∅ in
  let! has_name := contains data "name" in
  let! errors :=
    if has_name then
      let! name := dict_get data "name" (VStr "") in
      let! stripped := str_strip name in
      Ok (if (String.length stripped =? 0)%nat
          then <["name" := "Name cannot be empty"]> errors
          else errors)
    else Ok errors in
  let! has_price := contains data "price" in
  let! errors :=
    if has_price then
      let! price := subscript data "price" in
      Ok (if negb (isinstance_int_float price)
          then <["price" := "Price must be a number"]> errors
          else errors)
    else Ok errors in
  Ok (if negb (size errors =? 0)%nat then Some errors else None).

(** ** Responses *)

Inductive body : Type :=
| Json (v : value)
| Text (s : string).

Record response : Type := make_response { payload : body; status : Z }.

Definition jsonify (v : value) : body := Json v.

(** A dict display [{k1: v1, ...}]. *)
Definition dict_of (items : list (string * value)) : value :=
  VDict (list_to_map items).

(** The error handlers of lines 21-32. *)
Definition not_found : response :=
  make_response (jsonify (dict_of [("error", VStr "Resource not found")])) 404.

Definition bad_request : response :=
  make_response (jsonify (dict_of [("error", VStr "Bad request")])) 400.

Definition server_error : response :=
  make_response (jsonify (dict_of [("error", VStr "Internal server error")])) 500.

(** Modelled from the spec: the request router is an external collaborator;
    an exception that leaves a handler is answered by the handler of 500
    ("unhandled exception -> 500"). *)
Definition dispatch (r : result response) : response :=
  match r with
  | Ok resp => resp
  | Raise _ => server_error
  end.

(** ** The Plant model and its table

    [models.py] is not part of the sources; the model and the persistence
    layer are reconstructed from their uses in [app.py] and from the
    specification. *)

(** Modelled from the spec: the mapped object of class [Plant] (missing
    [models.py]), with the attributes of the data model: [id], [name],
    [image], [price], [is_in_stock]. An attribute holds any Python object,
    since [setattr] stores what it is given. *)
Record Plant : Type := {
  plant_id : value;
  plant_name : value;
  plant_image : value;
  plant_price : value;
  plant_is_in_stock : value
}.

(** Modelled from the spec: a persisted row of the table [plants] (missing
    [models.py]). The primary key [id] is the key of the table, so that
    every persisted Plant has a unique integer id. *)
Record row : Type := {
  row_name : value;
  row_image : value;
  row_price : value;
  row_is_in_stock : value
}.

Definition load (i : Z) (r : row) : Plant :=
  {| plant_id := VInt i; plant_name := row_name r; plant_image := row_image r;
     plant_price := row_price r; plant_is_in_stock := row_is_in_stock r |}.

Definition row_of (p : Plant) : row :=
  {| row_name := plant_name p; row_image := plant_image p;
     row_price := plant_price p; row_is_in_stock := plant_is_in_stock p |}.

(** Modelled from the spec: [Plant.to_dict] (missing [models.py]) returns
    the full record. *)
Definition to_dict (p : Plant) : value :=
  dict_of [("id", plant_id p); ("name", plant_name p);
           ("image", plant_image p); ("price", plant_price p);
           ("is_in_stock", plant_is_in_stock p)].

(** Modelled from the spec: [Plant.query.filter_by(id=id).first()]. *)
Definition query_first (t : gmap Z row) (i : Z) : option Plant :=
  load i <$> t !! i.

(** Modelled from the spec: [Plant.query.all()], in the store's natural
    order. *)
Definition query_all (t : gmap Z row) : list Plant :=
  (λ kr, load kr.1 kr.2) <$> map_to_list t.

(** Modelled from the spec: the id the store generates for a new row is
    not in use; here one past the largest id of the table, and 1 on an
    empty table. *)
Definition next_id (t : gmap Z row) : Z :=
  match (map_to_list t).*1 with
  | [] => 1
  | k :: ks => foldr Z.max k ks + 1
  end%Z.

(** Modelled from the spec: [db.session.delete(plant); db.session.commit()].
    The data model has no constraint that a deletion could break. *)
Definition commit_delete (t : gmap Z row) (i : Z) : result (gmap Z row) :=
  Ok (delete i t).

(** Modelled from the spec: [db.session.commit()] after the attributes of
    the row loaded under [old] were assigned. Only the integrity of the
    primary key is enforced: it is an integer and it is unique. *)
Definition commit_update (t : gmap Z row) (old : Z) (p : Plant)
    : result (gmap Z row) :=
  match plant_id p with
  | VInt n =>
      if bool_decide (n = old) then Ok (<[old := row_of p]> t)
      else if bool_decide (is_Some (t !! n)) then Raise IntegrityError
      else Ok (<[n := row_of p]> (delete old t))
  | _ => Raise IntegrityError
  end.

(** The columns of the model: the attributes of the data model, as the
    keyword arguments of lines 103-109 name them. *)
Definition plant_attrs : list string :=
  ["id"; "name"; "image"; "price"; "is_in_stock"].

Definition is_column (attr : string) : bool := bool_decide (attr ∈ plant_attrs).

Definition getattr (p : Plant) (attr : string) : option value :=
  if bool_decide (attr = "id") then Some (plant_id p)
  else if bool_decide (attr = "name") then Some (plant_name p)
  else if bool_decide (attr = "image") then Some (plant_image p)
  else if bool_decide (attr = "price") then Some (plant_price p)
  else if bool_decide (attr = "is_in_stock") then Some (plant_is_in_stock p)
  else None.

(** The assignment of a column. *)
Definition set_column (p : Plant) (attr : string) (v : value) : Plant :=
  if bool_decide (attr = "id") then
    {| plant_id := v; plant_name := plant_name p; plant_image := plant_image p;
       plant_price := plant_price p; plant_is_in_stock := plant_is_in_stock p |}
  else if bool_decide (attr = "name") then
    {| plant_id := plant_id p; plant_name := v; plant_image := plant_image p;
       plant_price := plant_price p; plant_is_in_stock := plant_is_in_stock p |}
  else if bool_decide (attr = "image") then
    {| plant_id := plant_id p; plant_name := plant_name p; plant_image := v;
       plant_price := plant_price p; plant_is_in_stock := plant_is_in_stock p |}
  else if bool_decide (attr = "price") then
    {| plant_id := plant_id p; plant_name := plant_name p;
       plant_image := plant_image p; plant_price := v;
       plant_is_in_stock := plant_is_in_stock p |}
  else if bool_decide (attr = "is_in_stock") then
    {| plant_id := plant_id p; plant_name := plant_name p;
       plant_image := plant_image p; plant_price := plant_price p;
       plant_is_in_stock := v |}
  else p.

(** What [setattr(plant, attr, v)] does when [attr] is an attribute of
    the object that is not a column. *)
Inductive assignment : Type :=
| Assigned          (* the object takes the value; neither the commit nor
                       [to_dict] sees it *)
| Refused (e : exn) (* [setattr] raises *)
| Unserialisable.   (* the object takes the value, and [plant.to_dict()]
                       raises from then on *)

(** Modelled from the spec: the attributes that the class [Plant] gets
    from [models.py] (missing) and from its base classes, beyond the names
    that [app.py] shows; they are a parameter of the model.
    [inherited attr] is [None] when the object has no such attribute, and
    otherwise tells what the assignment of a value does. *)
Record plant_class : Type := { inherited : string → option (value → assignment) }.

Section Controller.

Variable cls : plant_class.

(** The attributes of a Plant object that are not columns.
    - [to_dict] is the method that lines 55, 83, 119 and 150 call; a value
      assigned to the object under that name hides the method, and a
      decoded JSON value cannot be called.
    - [query] is the class attribute of lines 55, 113, 132 and 160; the
      object takes a value under that name without further effect.
    - [__class__] is an attribute of every Python object, and only a class
      may be assigned to it.
    - The other names are those of [cls]. *)
Definition other_attr (attr : string) : option (value → assignment) :=
  if bool_decide (attr = "to_dict") then Some (λ _, Unserialisable)
  else if bool_decide (attr = "query") then Some (λ _, Assigned)
  else if bool_decide (attr = "__class__") then Some (λ _, Refused TypeError)
  else inherited cls attr.

(** [hasattr(plant, attr)]. *)
Definition hasattr (attr : string) : bool :=
  is_column attr || bool_decide (is_Some (other_attr attr)).

(** [setattr(plant, attr, v)]. The object in the loop is the plant with
    its columns, and whether [to_dict] can no longer be called. *)
Definition setattr (obj : Plant * bool) (attr : string) (v : value)
    : result (Plant * bool) :=
  if is_column attr then Ok (set_column obj.1 attr v, obj.2)
  else
    match other_attr attr with
    | Some assign =>
        match assign v with
        | Assigned => Ok obj
        | Refused e => Raise e
        | Unserialisable => Ok (obj.1, true)
        end
    | None => Ok obj
    end.

(** The body of the loop of lines 145-147 on a dict: [item] is a key
    [attr] with the value [data[attr]] stored under it. *)
Definition set_item (obj : Plant * bool) (item : string * value)
    : result (Plant * bool) :=
  if hasattr item.1 then setattr obj item.1 item.2 else Ok obj.

Fixpoint set_items (obj : Plant * bool) (items : list (string * value))
    : result (Plant * bool) :=
  match items with
  | [] => Ok obj
  | item :: rest =>
      let! obj' := set_item obj item in
      set_items obj' rest
  end.

(** The same loop on a list: [hasattr] wants a string, and a list has no
    string index. *)
Fixpoint set_from_list (obj : Plant * bool) (l : list value)
    : result (Plant * bool) :=
  match l with
  | [] => Ok obj
  | VStr attr :: rest =>
      if hasattr attr then Raise TypeError else set_from_list obj rest
  | _ :: _ => Raise TypeError
  end.

(** The same loop on a string: [attr] ranges over its characters, and a
    string has no string index. *)
Fixpoint set_from_str (obj : Plant * bool) (s : string)
    : result (Plant * bool) :=
  match s with
  | EmptyString => Ok obj
  | String c rest =>
      if hasattr (String c EmptyString) then Raise TypeError
      else set_from_str obj rest
  end.

(** [for attr in data: if hasattr(plant, attr): setattr(plant, attr, data[attr])]
    on the plant that the query loaded. *)
Definition set_attrs (plant : Plant) (data : value) : result (Plant * bool) :=
  match data with
  | VDict m => set_items (plant, false) (map_to_list m)
  | VList l => set_from_list (plant, false) l
  | VStr s => set_from_str (plant, false) s
  | _ => Raise TypeError
  end.

(** The seed row of lines 103-109. *)
Definition test_plant : Plant :=
  {| plant_id := VInt 1; plant_name := VStr "Test Plant";
     plant_image := VStr "test.jpg";
     plant_price := VFloat (QArith_base.Qmake 999 100);
     plant_is_in_stock := VBool true |}.

(** Lines 97-111. The storage is [None] while the table [plants] does not
    exist; it is then created and seeded. *)
Definition ensure_table (db : option (gmap Z row)) : gmap Z row :=
  match db with
  | Some t => t
  | None => {[ 1%Z := row_of test_plant ]}
  end.

(** Decimal notation of an integer, as in an f-string. *)
Definition str_of_int (z : Z) : string := NilEmpty.string_of_int (Z.to_int z).

(** Modelled from the spec: the default the store gives to [is_in_stock]
    when a row is inserted without it (missing [models.py]). *)
Variable default_is_in_stock : value.

(** Modelled from the spec: [db.session.add(new_plant); db.session.commit()]
    for [Plant(name=.., image=.., price=..)]: the store generates the id and
    fills [is_in_stock] with its default. A uniqueness violation would raise
    [IntegrityError]. *)
Definition add_and_commit (t : gmap Z row) (name image price : value)
    : result (gmap Z row * Plant) :=
  let i := next_id t in
  let r := {| row_name := name; row_image := image; row_price := price;
              row_is_in_stock := default_is_in_stock |} in
  if bool_decide (is_Some (t !! i)) then Raise IntegrityError
  else Ok (<[i := r]> t, load i r).

(** ** Resource [Plants] (lines 52-89)

    [data] is the object that [request.get_json()] returned. *)

Definition Plants_get (t : gmap Z row) : gmap Z row * result response :=
  let plants := to_dict <$> query_all t in
  (t, Ok (make_response
            (jsonify (dict_of [("success", VBool true);
                               ("data", VList plants);
                               ("count", VInt (Z.of_nat (length plants)))]))
            200)).

Definition Plants_post (t : gmap Z row) (data : value)
    : gmap Z row * result response :=
  if negb (truthy data) then
    (t, Ok (make_response
              (jsonify (dict_of [("error", VStr "No data provided")])) 400))
  else
    match validate_plant_data data false with
    | Raise e => (t, Raise e)
    | Ok (Some errors) =>
        (t, Ok (make_response
                  (jsonify (dict_of [("errors", VDict (VStr <$> errors))]))
                  400))
    | Ok None =>
        match (let! name := subscript data "name" in
               let! image := subscript data "image" in
               let! price := subscript data "price" in
               add_and_commit t name image price) with
        | Ok (t', new_plant) =>
            (t', Ok (make_response
                       (jsonify (dict_of [("success", VBool true);
                                          ("data", to_dict new_plant)]))
                       201))
        | Raise IntegrityError =>
            (t, Ok (make_response
                      (jsonify (dict_of [("error", VStr "Database error occurred")]))
                      500))
        | Raise e => (t, Raise e)
        end
    end.

(** ** Resource [PlantByID] (lines 93-174) *)

(** No statement of the [try] block of lines 96-119 raises on this store,
    so that the [except] arm of lines 121-127 has no counterpart. *)
Definition PlantByID_get (db : option (gmap Z row)) (id : Z)
    : gmap Z row * result response :=
  let t := ensure_table db in
  match query_first t id with
  | None =>
      (t, Ok (make_response
                (jsonify (dict_of
                   [("error", VStr ("Plant with id " ++ str_of_int id ++ " not found"))]))
                404))
  | Some plant => (t, Ok (make_response (jsonify (to_dict plant)) 200))
  end.

(** Lines 129-156. What a statement of the [try] block raises is answered
    500 by the [except] arm: in the loop of lines 145-147 nothing was
    committed; a commit that fails (line 149) is rolled back; and when
    [plant.to_dict()] raises (line 150) the commit has stored the record
    already. *)
Definition PlantByID_patch (t : gmap Z row) (id : Z) (data : value)
    : gmap Z row * result response :=
  let server_error_occurred :=
    make_response
      (jsonify (dict_of [("error", VStr "Server error occurred")])) 500 in
  match query_first t id with
  | None =>
      (t, Ok (make_response
                (jsonify (dict_of [("error", VStr "Plant not found")])) 404))
  | Some plant =>
      if negb (truthy data) then
        (t, Ok (make_response
                  (jsonify (dict_of [("error", VStr "No data provided")])) 400))
      else
        match set_attrs plant data with
        | Raise _ => (t, Ok server_error_occurred)
        | Ok (plant', unserialisable) =>
            match commit_update t id plant' with
            | Raise _ => (t, Ok server_error_occurred)
            | Ok t' =>
                (* line 150: when [to_dict] raises, the commit of line 149
                   is done and the rollback of line 153 undoes nothing *)
                if unserialisable then (t', Ok server_error_occurred)
                else (t', Ok (make_response (jsonify (to_dict plant')) 200))
            end
        end
  end.

Definition PlantByID_delete (t : gmap Z row) (id : Z)
    : gmap Z row * result response :=
  match query_first t id with
  | None =>
      (t, Ok (make_response
                (jsonify (dict_of [("error", VStr "Plant not found")])) 404))
  | Some plant =>
      match commit_delete t id with
      | Ok t' => (t', Ok (make_response (Text "") 204))
      | Raise IntegrityError =>
          (t, Ok (make_response
                    (jsonify (dict_of [("error", VStr "Database error occurred")]))
                    500))
      | Raise e => (t, Raise e)
      end
  end.

(** ** Requests and runs *)

Inductive request : Type :=
| ListPlants
| CreatePlant (data : value)
| GetPlant (id : Z)
| PatchPlant (id : Z) (data : value)
| DeletePlant (id : Z).

Definition handle (q : request) (t : gmap Z row) : gmap Z row * response :=
  let out :=
    match q with
    | ListPlants => Plants_get t
    | CreatePlant data => Plants_post t data
    | GetPlant id => PlantByID_get (Some t) id
    | PatchPlant id data => PlantByID_patch t id data
    | DeletePlant id => PlantByID_delete t id
    end in
  (out.1, dispatch out.2).

(** The requests of [qs] served in turn; the responses are returned with
    their requests. *)
Fixpoint run (qs : list request) (t : gmap Z row)
    : gmap Z row * list (request * response) :=
  match qs with
  | [] => (t, [])
  | q :: rest =>
      let (t', resp) := handle q t in
      let (t'', log) := run rest t' in
      (t'', (q, resp) :: log)
  end.

End Controller.

(** * Vocabulary of the properties *)

(** A class that brings no attribute beyond those of [other_attr]; used
    in the examples. *)
Definition no_inherited : plant_class := {| inherited := λ _, None |}.

(** The assignment of the item raises. *)
Definition refuses (cls : plant_class) (item : string * value) : bool :=
  negb (is_column item.1)
  && match other_attr cls item.1 with
     | Some assign =>
         match assign item.2 with
         | Refused _ => true
         | _ => false
         end
     | None => false
     end.

(** The assignment of the item leaves [to_dict] unusable. *)
Definition shadows (cls : plant_class) (item : string * value) : bool :=
  negb (is_column item.1)
  && match other_attr cls item.1 with
     | Some assign =>
         match assign item.2 with
         | Unserialisable => true
         | _ => false
         end
     | None => false
     end.

(** No key of the body makes [setattr] raise. *)
Definition body_accepted (cls : plant_class) (m : gmap string value) : bool :=
  forallb (λ item, negb (refuses cls item)) (map_to_list m).

(** No key of the body makes [setattr] raise or leaves [to_dict]
    unusable. *)
Definition body_clean (cls : plant_class) (m : gmap string value) : bool :=
  forallb (λ item, negb (refuses cls item) && negb (shadows cls item))
    (map_to_list m).

(** Rows and bodies used in the examples. *)
Definition fern : row :=
  {| row_name := VStr "Fern"; row_image := VStr "fern.jpg";
     row_price := VFloat (QArith_base.Qmake 25 2);
     row_is_in_stock := VBool true |}.

Definition fern_repriced : row :=
  {| row_name := VStr "Fern"; row_image := VStr "fern.jpg";
     row_price := VInt 7; row_is_in_stock := VBool true |}.


Definition fern_body : value :=
  dict_of [("name", VStr "Fern"); ("image", VStr "fern.jpg");
           ("price", VFloat (QArith_base.Qmake 25 2));
           ("is_in_stock", VBool false)].

(** The name of the body, when it has one, is a string. *)
Definition name_is_str_or_absent (m : gmap string value) : Prop :=
  ∀ v, m !! "name" = Some v → is_str v = true.

Definition verdict (errors : gmap string string) : option (gmap string string) :=
  if negb (size errors =? 0)%nat then Some errors else None.

(** The plant that the loop of lines 145-147 leaves: an attribute takes
    the value of the body when the body has it, and keeps its own
    otherwise. *)
Definition merged (p : Plant) (m : gmap string value) : Plant :=
  {| plant_id := default (plant_id p) (m !! "id");
     plant_name := default (plant_name p) (m !! "name");
     plant_image := default (plant_image p) (m !! "image");
     plant_price := default (plant_price p) (m !! "price");
     plant_is_in_stock := default (plant_is_in_stock p) (m !! "is_in_stock") |}.





Definition plant_not_found : response :=
  make_response (jsonify (dict_of [("error", VStr "Plant not found")])) 404.

(** The request is a partial update whose body has an integer [id] that
    is not the id of the request. *)
Definition rekeys (q : request) : bool :=
  match q with
  | PatchPlant i (VDict m) =>
      match m !! "id" with
      | Some (VInt n) => negb (n =? i)%Z
      | _ => false
      end
  | _ => false
  end.

(** The request is a partial update whose body is a dict with a key [id]
    whose value is not the id of the request, as an integer. *)
Definition carries_other_id (q : request) : bool :=
  match q with
  | PatchPlant i (VDict m) =>
      match m !! "id" with
      | Some (VInt n) => negb (n =? i)%Z
      | Some _ => true
      | None => false
      end
  | _ => false
  end.

(** Serving [q] keeps every record under its id: a record of the table is
    still stored under the same id afterwards, unless [q] deletes it, and
    an id that was not in use is in use afterwards only when [q] is a
    create and the id is the generated one. *)
Definition ids_kept (cls : plant_class) (dflt : value) (q : request)
    (t : gmap Z row) : Prop :=
  let t' := (handle cls dflt q t).1 in
  (∀ i, is_Some (t !! i) → q ≠ DeletePlant i → is_Some (t' !! i))
  ∧ (∀ j, is_Some (t' !! j) → t !! j = None →
       ∃ data, q = CreatePlant data ∧ j = next_id t).

(** A create answered 201, a delete answered 204. *)
Definition is_created (e : request * response) : bool :=
  match e.1 with
  | CreatePlant _ => bool_decide (status e.2 = 201%Z)
  | _ => false
  end.

Definition is_deleted (e : request * response) : bool :=
  match e.1 with
  | DeletePlant _ => bool_decide (status e.2 = 204%Z)
  | _ => false
  end.

Fixpoint count_if {A : Type} (f : A → bool) (l : list A) : nat :=
  match l with
  | [] => 0
  | x :: rest => (if f x then 1 else 0) + count_if f rest
  end.

(** ** Vocabulary of the further properties *)

(** A string that does not trim to the empty string. *)
Definition nonblank_str (v : value) : bool :=
  match v with
  | VStr s => negb (String.length (strip s) =? 0)%nat
  | _ => false
  end.

(** The body has a name that is a non-blank string, an image, and a
    price that is an instance of [int] or [float]. *)
Definition valid_body (m : gmap string value) : bool :=
  match m !! "name", m !! "image", m !! "price" with
  | Some name, Some _, Some price =>
      nonblank_str name && isinstance_int_float price
  | _, _, _ => false
  end.

(** The same without the required fields: what is there is well formed. *)
Definition valid_partial_body (m : gmap string value) : bool :=
  match m !! "name" with
  | Some name => nonblank_str name
  | None => true
  end
  && match m !! "price" with
     | Some price => isinstance_int_float price
     | None => true
     end.

Fixpoint all_space (s : string) : bool :=
  match s with
  | EmptyString => true
  | String c s' => isspace c && all_space s'
  end.

(** The pairs of field and message that the validator can report. *)
Definition reportable (f msg : string) : Prop :=
  (f ∈ required_fields ∧ msg = "This field is required")
  ∨ (f = "name" ∧ msg = "Name cannot be empty")
  ∨ (f = "price" ∧ msg = "Price must be a number").

(** An object that is neither a dict, nor a list, nor a string. *)
Definition is_scalar (v : value) : bool :=
  match v with
  | VNone | VBool _ | VInt _ | VFloat _ => true
  | _ => false
  end.

Definition no_data_provided : response :=
  make_response (jsonify (dict_of [("error", VStr "No data provided")])) 400.

Definition patch_failed : response :=
  make_response (jsonify (dict_of [("error", VStr "Server error occurred")])) 500.

Definition is_patch (q : request) : bool :=
  match q with
  | PatchPlant _ _ => true
  | _ => false
  end.

(** A row as [Plants.post] stores it. *)
Definition as_created (dflt : value) (r : row) : Prop :=
  nonblank_str (row_name r) = true
  ∧ isinstance_int_float (row_price r) = true
  ∧ row_is_in_stock r = dflt.

(** The errors of the loop of lines 40-42 on a dict. *)
Definition missing_errors (m : gmap string value) : gmap string string :=
  let add (f : string) (errors : gmap string string) :=
    if bool_decide (is_Some (m !! f)) then errors
    else <[f := "This field is required"]> errors in
  add "price" (add "image" (add "name" ∅)).

(** The check of the name (lines 44-45) on a dict. *)
Definition name_step (m : gmap string value) (errors : gmap string string)
    : result (gmap string string) :=
  match m !! "name" with
  | Some (VStr s) =>
      Ok (if (String.length (strip s) =? 0)%nat
          then <["name" := "Name cannot be empty"]> errors else errors)
  | Some _ => Raise AttributeError
  | None => Ok errors
  end.

(** The check of the price (lines 47-48) on a dict. *)
Definition price_step (m : gmap string value) (errors : gmap string string)
    : gmap string string :=
  match m !! "price" with
  | Some price =>
      if negb (isinstance_int_float price)
      then <["price" := "Price must be a number"]> errors else errors
  | None => errors
  end.

(** The bodies that are false for [if not data]. *)
Definition empty_body (data : value) : Prop :=
  data = VNone ∨ data = VBool false ∨ data = VInt 0
  ∨ (∃ q, data = VFloat q ∧ QArith_base.Qnum q = 0%Z)
  ∨ data = VStr "" ∨ data = VList [] ∨ data = VDict ∅.

Definition is_dict (v : value) : bool :=
  match v with
  | VDict _ => true
  | _ => false
  end.

(** In the proofs on the validator: the cases of a required field. *)
Ltac required_case Hf :=
  unfold required_fields in Hf;
  rewrite !elem_of_cons, elem_of_nil in Hf;
  destruct Hf as [->|[->|[->|[]]]];
  first [congruence | reflexivity].

(** * Properties *)

(** ** Python primitives on a dict *)

Lemma contains_dict_Some (m : gmap string value) k v :
  m !! k = Some v → contains (VDict m) k = Ok true.
Proof. intros H. simpl. by rewrite H. Qed.

Lemma dict_get_Some (m : gmap string value) k v dflt :
  m !! k = Some v → dict_get (VDict m) k dflt = Ok v.
Proof. intros H. simpl. by rewrite H. Qed.

Lemma truthy_dict_lookup (m : gmap string value) k v :
  m !! k = Some v → truthy (VDict m) = true.
Proof.
  intros H. simpl. destruct (size m) eqn:E; [|done].
  apply map_size_empty_iff in E. subst m. by rewrite lookup_empty in H.
Qed.

Lemma check_required_dict (m : gmap string value) fields errors :
  ∃ errors', check_required (VDict m) fields errors = Ok errors'.
Proof.
  revert errors. induction fields as [|f fields IH]; intros errors; simpl.
  - by eexists.
  - apply IH.
Qed.

Lemma str_strip_not_str v : is_str v = false → str_strip v = Raise AttributeError.
Proof. by destruct v. Qed.

(** ** The validator raises on a name that is not a string *)

Lemma validate_non_string_name (m : gmap string value) v partial :
  m !! "name" = Some v → is_str v = false →
  validate_plant_data (VDict m) partial = Raise AttributeError.
Proof.
  intros Hm Hv. unfold validate_plant_data.
  assert (∃ e, (if partial then Ok ∅
                else check_required (VDict m) required_fields ∅) = Ok e) as [e ->].
  { destruct partial; [by eexists | apply check_required_dict]. }
  cbn [bind]. rewrite (contains_dict_Some _ _ _ Hm). cbn [bind].
  rewrite (dict_get_Some _ _ _ _ Hm). cbn [bind].
  by rewrite (str_strip_not_str _ Hv).
Qed.

(** C10: a create request whose body has a [name] that is not a string
    makes the validator raise (the [.strip()] of line 44 has no type check)
    instead of returning a mapping of field errors; the exception leaves
    [Plants.post], nothing is persisted, and the request is answered with
    status 500 by the generic handler, not with the 400 of a validation
    failure. *)
Theorem C10_non_string_name_raises
    (cls : plant_class) (dflt : value) (t : gmap Z row)
    (m : gmap string value) (v : value) :
  m !! "name" = Some v → is_str v = false →
  validate_plant_data (VDict m) false = Raise AttributeError
  ∧ Plants_post dflt t (VDict m) = (t, Raise AttributeError)
  ∧ handle cls dflt (CreatePlant (VDict m)) t = (t, server_error)
  ∧ status server_error = 500%Z.
Proof.
  intros Hm Hv.
  pose proof (validate_non_string_name m v false Hm Hv) as Hval.
  assert (Plants_post dflt t (VDict m) = (t, Raise AttributeError)) as Hpost.
  { unfold Plants_post. rewrite (truthy_dict_lookup _ _ _ Hm). cbn [negb].
    by rewrite Hval. }
  repeat split; [done..|].
  unfold handle. by rewrite Hpost.
Qed.

Lemma C10_non_string_name_raises_witness :
  validate_plant_data (dict_of [("name", VInt 5)]) false = Raise AttributeError
  ∧ Plants_post VNone ∅ (dict_of [("name", VInt 5)]) = (∅, Raise AttributeError)
  ∧ handle no_inherited VNone (CreatePlant (dict_of [("name", VInt 5)])) ∅
      = (∅, server_error)
  ∧ status server_error = 500%Z.
Proof.
  apply (C10_non_string_name_raises no_inherited VNone ∅
           (list_to_map [("name", VInt 5)]) (VInt 5));
    reflexivity.
Defined.

(** ** The validator on a dict whose name, if any, is a string *)

Lemma verdict_lookup (errors : gmap string string) f msg :
  errors !! f = Some msg → verdict errors = Some errors.
Proof.
  intros H. unfold verdict. destruct (size errors) eqn:E; [|done].
  apply map_size_empty_iff in E. subst errors. by rewrite lookup_empty in H.
Qed.

Lemma validate_dict_name_ok (m : gmap string value) :
  name_is_str_or_absent m →
  ∃ errors,
    validate_plant_data (VDict m) false = Ok (verdict errors)
    ∧ (∀ f, f ∈ required_fields → m !! f = None →
         errors !! f = Some "This field is required")
    ∧ (∀ s, m !! "name" = Some (VStr s) → strip s = "" →
         errors !! "name" = Some "Name cannot be empty")
    ∧ (∀ v, m !! "price" = Some v → isinstance_int_float v = false →
         errors !! "price" = Some "Price must be a number").
Proof.
  intros Hname. unfold validate_plant_data, name_is_str_or_absent in *.
  fold verdict.
  cbn [check_required required_fields contains bind dict_get subscript].
  destruct (m !! "name") as [v|] eqn:Hn.
  - pose proof (Hname v eq_refl) as Hv. destruct v; try discriminate Hv.
    clear Hname Hv.
    destruct (m !! "image") as [iv|] eqn:Hi;
      destruct (m !! "price") as [pv|] eqn:Hp;
      cbn; try destruct (isinstance_int_float pv) eqn:Hpv;
      destruct (String.length (strip s)) eqn:Hs; cbn;
      (eexists; split; [reflexivity|]);
      (split; [intros f Hf Hm; required_case Hf
              | split; [intros s' Hs' Hstrip | intros v Hv' Hnum]]);
      first [ reflexivity
            | congruence
            | exfalso; simplify_eq; rewrite Hstrip in Hs; discriminate ].
  - clear Hname.
    destruct (m !! "image") as [iv|] eqn:Hi;
      destruct (m !! "price") as [pv|] eqn:Hp;
      cbn; try destruct (isinstance_int_float pv) eqn:Hpv; cbn;
      (eexists; split; [reflexivity|]);
      (split; [intros f Hf Hm; required_case Hf
              | split; [intros s' Hs' Hstrip | intros v Hv' Hnum]]);
      first [ reflexivity | congruence ].
Qed.

Lemma post_validation_failure dflt (t : gmap Z row) data errors :
  truthy data = true →
  validate_plant_data data false = Ok (Some errors) →
  Plants_post dflt t data =
    (t, Ok (make_response
              (jsonify (dict_of [("errors", VDict (VStr <$> errors))])) 400)).
Proof. intros Ht Hv. unfold Plants_post. by rewrite Ht, Hv. Qed.

(** When the name is absent or a string, a create request that lacks a
    required field is answered 400, and the errors name every missing
    field. *)
Lemma post_reports_missing_fields dflt (t : gmap Z row) (m : gmap string value) f0 :
  name_is_str_or_absent m → truthy (VDict m) = true →
  f0 ∈ required_fields → m !! f0 = None →
  ∃ errors,
    Plants_post dflt t (VDict m) =
      (t, Ok (make_response
                (jsonify (dict_of [("errors", VDict (VStr <$> errors))])) 400))
    ∧ ∀ f, f ∈ required_fields → m !! f = None →
        errors !! f = Some "This field is required".
Proof.
  intros Hname Ht Hf0 Hm0.
  destruct (validate_dict_name_ok m Hname) as (errors & Hval & Hreq & _ & _).
  exists errors. split; [|done].
  apply post_validation_failure; [done|].
  by rewrite Hval, (verdict_lookup _ _ _ (Hreq f0 Hf0 Hm0)).
Qed.

(** When the name is absent or a string, a create request whose price is
    not an instance of [int] or [float] is answered 400 with an error for
    [price], and the table is left as it was. *)
Lemma post_reports_price dflt (t : gmap Z row) (m : gmap string value) v :
  name_is_str_or_absent m →
  m !! "price" = Some v → isinstance_int_float v = false →
  ∃ errors,
    Plants_post dflt t (VDict m) =
      (t, Ok (make_response
                (jsonify (dict_of [("errors", VDict (VStr <$> errors))])) 400))
    ∧ errors !! "price" = Some "Price must be a number".
Proof.
  intros Hname Hm Hv.
  destruct (validate_dict_name_ok m Hname) as (errors & Hval & _ & _ & Hprice).
  exists errors. split; [|by eapply Hprice].
  apply post_validation_failure; [by eapply truthy_dict_lookup|].
  by rewrite Hval, (verdict_lookup _ _ _ (Hprice v Hm Hv)).
Qed.


(** C2: the create request [{"name": 5}] has a non-empty body that omits
    [image] and [price]; the validator raises on the name before it
    returns, so that the request is answered 500 by the generic handler
    and no error for the missing fields is reported. *)
Theorem C2_missing_fields_unreported_on_non_string_name
    (cls : plant_class) (dflt : value) (t : gmap Z row) :
  let data := dict_of [("name", VInt 5)] in
  truthy data = true
  ∧ subscript data "image" = Raise KeyError
  ∧ subscript data "price" = Raise KeyError
  ∧ validate_plant_data data false = Raise AttributeError
  ∧ Plants_post dflt t data = (t, Raise AttributeError)
  ∧ handle cls dflt (CreatePlant data) t = (t, server_error)
  ∧ status server_error = 500%Z.
Proof. repeat split. Qed.

(** C4: the create request [{"name": 5, "image": "fern.jpg", "price":
    "free"}] has a price that is a string; the validator raises on the
    name before it reaches the check of the price, so that the request is
    answered 500 by the generic handler, without an error for [price]. *)
Theorem C4_price_error_unreported_on_non_string_name
    (cls : plant_class) (dflt : value) (t : gmap Z row) :
  let data := dict_of [("name", VInt 5); ("image", VStr "fern.jpg");
                       ("price", VStr "free")] in
  subscript data "price" = Ok (VStr "free")
  ∧ isinstance_int_float (VStr "free") = false
  ∧ validate_plant_data data false = Raise AttributeError
  ∧ Plants_post dflt t data = (t, Raise AttributeError)
  ∧ handle cls dflt (CreatePlant data) t = (t, server_error)
  ∧ status server_error = 500%Z.
Proof. repeat split. Qed.

(** A boolean is an instance of [int]: the create request [{"name": "Fern",
    "image": "fern.jpg", "price": true}] passes the validator and is
    persisted. *)
Lemma post_accepts_boolean_price (dflt : value) :
  let data := dict_of [("name", VStr "Fern"); ("image", VStr "fern.jpg");
                       ("price", VBool true)] in
  let r := {| row_name := VStr "Fern"; row_image := VStr "fern.jpg";
              row_price := VBool true; row_is_in_stock := dflt |} in
  validate_plant_data data false = Ok None
  ∧ Plants_post dflt ∅ data =
      ({[ 1%Z := r ]},
       Ok (make_response
             (jsonify (dict_of [("success", VBool true);
                                ("data", to_dict (load 1 r))])) 201)).
Proof. split; reflexivity. Qed.

(** ** The merge of a dict into a loaded row *)

Lemma merged_insert (p : Plant) k v (m : gmap string value) :
  m !! k = None →
  merged (if is_column k then set_column p k v else p) m = merged p (<[k := v]> m).
Proof.
  intros Hk. unfold merged, is_column, set_column, plant_attrs.
  destruct (decide (k = "id")) as [->|Hid].
  { rewrite !lookup_insert_eq, Hk. cbn. by rewrite !lookup_insert_ne. }
  destruct (decide (k = "name")) as [->|Hname].
  { rewrite !lookup_insert_eq, Hk. cbn. by rewrite !lookup_insert_ne. }
  destruct (decide (k = "image")) as [->|Himage].
  { rewrite !lookup_insert_eq, Hk. cbn. by rewrite !lookup_insert_ne. }
  destruct (decide (k = "price")) as [->|Hprice].
  { rewrite !lookup_insert_eq, Hk. cbn. by rewrite !lookup_insert_ne. }
  destruct (decide (k = "is_in_stock")) as [->|Hstock].
  { rewrite !lookup_insert_eq, Hk. cbn. by rewrite !lookup_insert_ne. }
  rewrite !lookup_insert_ne by done.
  case_bool_decide as Hin.
  - rewrite !elem_of_cons, elem_of_nil in Hin.
    by destruct Hin as [?|[?|[?|[?|[?|[]]]]]].
  - done.
Qed.

Lemma merged_empty (p : Plant) : merged p ∅ = p.
Proof. by destruct p. Qed.

Lemma set_item_spec cls (p : Plant) (b : bool) (item : string * value) :
  if refuses cls item
  then ∃ e, set_item cls (p, b) item = Raise e
  else set_item cls (p, b) item =
         Ok (if is_column item.1 then set_column p item.1 item.2 else p,
             b || shadows cls item).
Proof.
  unfold set_item, hasattr, setattr, refuses, shadows. cbn [fst snd].
  destruct (is_column item.1); cbn [orb negb andb]; [by rewrite orb_false_r|].
  destruct (other_attr cls item.1) as [assign|];
    cbn [bool_decide decide_rel is_Some_dec]; [|by rewrite orb_false_r].
  destruct (assign item.2) as [|e|].
  - by rewrite orb_false_r.
  - by exists e.
  - by rewrite orb_true_r.
Qed.

(** The loop on the items of a dict: it raises when the assignment of an
    item raises, and otherwise leaves the merge of the items, with
    [to_dict] unusable when an item shadows it. *)
Lemma set_items_spec cls (l : list (string * value)) (p : Plant) (b : bool) :
  NoDup l.*1 →
  if existsb (refuses cls) l
  then ∃ e, set_items cls (p, b) l = Raise e
  else set_items cls (p, b) l =
         Ok (merged p (list_to_map l), b || existsb (shadows cls) l).
Proof.
  revert p b. induction l as [|[k v] l IH]; intros p b Hnd.
  - cbn. by rewrite merged_empty, orb_false_r.
  - apply NoDup_cons in Hnd as [Hk Hnd].
    apply not_elem_of_list_to_map_1 in Hk.
    cbn [set_items existsb list_to_map foldr].
    pose proof (set_item_spec cls p b (k, v)) as Hitem.
    destruct (refuses cls (k, v)); cbn [orb].
    + destruct Hitem as [e ->]. by exists e.
    + rewrite Hitem. cbn [bind fst snd].
      specialize (IH (if is_column k then set_column p k v else p)
                     (b || shadows cls (k, v)) Hnd).
      destruct (existsb (refuses cls) l); [done|].
      by rewrite IH, (merged_insert p k v _ Hk), orb_assoc.
Qed.

Lemma body_accepted_existsb cls (m : gmap string value) :
  body_accepted cls m = negb (existsb (refuses cls) (map_to_list m)).
Proof.
  unfold body_accepted. induction (map_to_list m) as [|item l IH]; [done|].
  cbn [forallb existsb]. rewrite IH. by destruct (refuses cls item).
Qed.

Lemma body_clean_split cls (m : gmap string value) :
  body_clean cls m = true ↔
  body_accepted cls m = true ∧ existsb (shadows cls) (map_to_list m) = false.
Proof.
  unfold body_clean, body_accepted.
  induction (map_to_list m) as [|item l IH]; [done|].
  cbn [forallb existsb].
  rewrite !andb_true_iff, orb_false_iff, IH, !negb_true_iff. tauto.
Qed.

Lemma columns_clean cls (m : gmap string value) :
  forallb is_column (map_to_list m).*1 = true → body_clean cls m = true.
Proof.
  unfold body_clean. induction (map_to_list m) as [|[k v] l IH]; [done|].
  cbn [fmap list_fmap forallb fst]. intros [Hk Hl]%andb_true_iff.
  rewrite (IH Hl), andb_true_r. unfold refuses, shadows. cbn [fst].
  by rewrite Hk.
Qed.

(** The loop of lines 145-147 on a dict. *)
Lemma set_attrs_dict cls (p : Plant) (m : gmap string value) :
  if body_accepted cls m
  then set_attrs cls p (VDict m) =
         Ok (merged p m, existsb (shadows cls) (map_to_list m))
  else ∃ e, set_attrs cls p (VDict m) = Raise e.
Proof.
  rewrite body_accepted_existsb. cbn [set_attrs].
  pose proof (set_items_spec cls (map_to_list m) p false
                (NoDup_fst_map_to_list m)) as H.
  destruct (existsb (refuses cls) (map_to_list m)); cbn [negb]; [done|].
  by rewrite H, list_to_map_to_list.
Qed.

Lemma set_attrs_dict_clean cls (p : Plant) (m : gmap string value) :
  body_clean cls m = true → set_attrs cls p (VDict m) = Ok (merged p m, false).
Proof.
  intros [Hacc Hsh]%body_clean_split.
  pose proof (set_attrs_dict cls p m) as H. rewrite Hacc in H.
  by rewrite H, Hsh.
Qed.

Lemma set_attrs_dict_Ok cls (p p' : Plant) (m : gmap string value) b :
  set_attrs cls p (VDict m) = Ok (p', b) →
  p' = merged p m ∧ b = existsb (shadows cls) (map_to_list m)
  ∧ body_accepted cls m = true.
Proof.
  pose proof (set_attrs_dict cls p m) as H.
  destruct (body_accepted cls m).
  - rewrite H. by intros [= <- <-].
  - destruct H as [e ->]. done.
Qed.

(** [PlantByID.patch] on a dict and an existing row: the three ways to
    500 and the way to 200. *)
Lemma patch_dict_outcome cls (t : gmap Z row) i r (m : gmap string value) :
  t !! i = Some r → truthy (VDict m) = true →
  PlantByID_patch cls t i (VDict m) =
    if body_accepted cls m then
      match commit_update t i (merged (load i r) m) with
      | Ok t' =>
          if existsb (shadows cls) (map_to_list m) then (t', Ok patch_failed)
          else (t', Ok (make_response
                          (jsonify (to_dict (merged (load i r) m))) 200))
      | Raise _ => (t, Ok patch_failed)
      end
    else (t, Ok patch_failed).
Proof.
  intros Hi Ht. unfold PlantByID_patch, query_first. rewrite Hi.
  cbn [fmap option_fmap option_map]. cbn zeta. rewrite Ht. cbn [negb].
  pose proof (set_attrs_dict cls (load i r) m) as Hset.
  destruct (body_accepted cls m).
  - rewrite Hset. by destruct (commit_update t i (merged (load i r) m)).
  - by destruct Hset as [e ->].
Qed.

(** The same when the body sets columns only. *)
Lemma patch_dict cls (t : gmap Z row) i r (m : gmap string value) :
  t !! i = Some r → truthy (VDict m) = true → body_clean cls m = true →
  PlantByID_patch cls t i (VDict m) =
    match commit_update t i (merged (load i r) m) with
    | Ok t' =>
        (t', Ok (make_response (jsonify (to_dict (merged (load i r) m))) 200))
    | Raise _ => (t, Ok patch_failed)
    end.
Proof.
  intros Hi Ht [Hacc Hsh]%body_clean_split.
  by rewrite (patch_dict_outcome _ _ _ _ _ Hi Ht), Hacc, Hsh.
Qed.


Lemma commit_update_Ok (t : gmap Z row) i p t' :
  commit_update t i p = Ok t' →
  ∃ n, plant_id p = VInt n
       ∧ (n = i ∨ t !! n = None)
       ∧ t' = <[n := row_of p]> (delete i t).
Proof.
  unfold commit_update. destruct (plant_id p) as [| |n| | | |]; try done.
  case_bool_decide as Hn.
  - intros [= <-]. subst n. exists i. by rewrite insert_delete_eq; auto.
  - case_bool_decide as Hin; [done|]. intros [= <-]. exists n.
    split; [done|]. split; [|done]. right. destruct (t !! n) eqn:E; [|done].
    destruct Hin. by eexists.
Qed.

Lemma load_row_of (p : Plant) n : plant_id p = VInt n → load n (row_of p) = p.
Proof. destruct p. cbn. by intros ->. Qed.

Lemma getattr_merged (p : Plant) (m : gmap string value) a :
  a ∈ plant_attrs →
  getattr (merged p m) a =
    match m !! a with
    | Some v => Some v
    | None => getattr p a
    end.
Proof.
  unfold plant_attrs. rewrite !elem_of_cons, elem_of_nil.
  intros [->|[->|[->|[->|[->|[]]]]]]; unfold getattr;
    repeat (case_bool_decide; [try discriminate|try done]);
    cbn [merged plant_id plant_name plant_image plant_price plant_is_in_stock];
    match goal with |- context [m !! ?k] => by destruct (m !! k) end.
Qed.

(** A partial update of a dict that is answered 200. *)
Lemma patch_200_cases cls (t t' : gmap Z row) i (m : gmap string value) resp :
  PlantByID_patch cls t i (VDict m) = (t', Ok resp) → status resp = 200%Z →
  ∃ r n,
    t !! i = Some r ∧ truthy (VDict m) = true
    ∧ body_clean cls m = true
    ∧ plant_id (merged (load i r) m) = VInt n
    ∧ (n = i ∨ t !! n = None)
    ∧ t' = <[n := row_of (merged (load i r) m)]> (delete i t)
    ∧ resp = make_response (jsonify (to_dict (merged (load i r) m))) 200.
Proof.
  intros Hpatch Hstatus.
  destruct (t !! i) as [r|] eqn:Hi.
  2: { unfold PlantByID_patch, query_first in Hpatch. rewrite Hi in Hpatch.
       cbn in Hpatch. by simplify_eq. }
  destruct (truthy (VDict m)) eqn:Ht.
  2: { unfold PlantByID_patch, query_first in Hpatch. rewrite Hi in Hpatch.
       cbn [fmap option_fmap option_map] in Hpatch. cbn zeta in Hpatch.
       rewrite Ht in Hpatch. cbn in Hpatch. by simplify_eq. }
  rewrite (patch_dict_outcome cls t i r m Hi Ht) in Hpatch.
  destruct (body_accepted cls m) eqn:Hacc; [|by simplify_eq].
  destruct (commit_update t i (merged (load i r) m)) as [t1|e] eqn:Hcommit;
    [|by simplify_eq].
  destruct (existsb (shadows cls) (map_to_list m)) eqn:Hsh; [by simplify_eq|].
  injection Hpatch as <- <-.
  destruct (commit_update_Ok _ _ _ _ Hcommit) as (n & Hn & Hfree & ->).
  exists r, n. split; [done|]. split; [done|].
  split; [by apply body_clean_split|]. done.
Qed.

(** ** Blank names: create against partial update *)




(** ** Partial update: what changes and what does not *)

(** C8: when a partial update whose body is a dict of attributes of Plant
    is answered 200, the record was in the table, and the plant that is
    returned and stored has, for every attribute, the value of the body
    when the body supplies it and the value stored before otherwise; no
    other record is touched. *)
Theorem C8_partial_update_overwrites_only_supplied
    (cls : plant_class) (t t' : gmap Z row) (i : Z) (m : gmap string value)
    (resp : response) :
  forallb is_column (map_to_list m).*1 = true →
  PlantByID_patch cls t i (VDict m) = (t', Ok resp) → status resp = 200%Z →
  ∃ r p' n,
    t !! i = Some r
    ∧ payload resp = Json (to_dict p')
    ∧ plant_id p' = VInt n
    ∧ t' !! n = Some (row_of p')
    ∧ (∀ a, a ∈ plant_attrs →
         getattr p' a = match m !! a with
                        | Some v => Some v
                        | None => getattr (load i r) a
                        end)
    ∧ (∀ j, j ≠ i → j ≠ n → t' !! j = t !! j).
Proof.
  intros Hcols Hpatch Hstatus.
  destruct (t !! i) as [r|] eqn:Hi.
  2: { unfold PlantByID_patch, query_first in Hpatch. rewrite Hi in Hpatch.
       cbn in Hpatch. by simplify_eq. }
  destruct (truthy (VDict m)) eqn:Ht.
  2: { unfold PlantByID_patch, query_first in Hpatch. rewrite Hi in Hpatch.
       cbn [fmap option_fmap option_map] in Hpatch. cbn zeta in Hpatch.
       rewrite Ht in Hpatch. cbn in Hpatch. by simplify_eq. }
  rewrite (patch_dict cls t i r m Hi Ht (columns_clean cls m Hcols)) in Hpatch.
  destruct (commit_update t i (merged (load i r) m)) as [t1|e] eqn:Hcommit.
  2: { by simplify_eq. }
  injection Hpatch as <- <-.
  destruct (commit_update_Ok _ _ _ _ Hcommit) as (n & Hn & _ & ->).
  exists r, (merged (load i r) m), n.
  split; [done|]. split; [done|]. split; [done|].
  split; [by rewrite lookup_insert_eq|]. split.
  - intros a Ha. by apply getattr_merged.
  - intros j Hji Hjn. by rewrite lookup_insert_ne, lookup_delete_ne.
Qed.

Lemma C8_partial_update_overwrites_only_supplied_witness :
  let m : gmap string value := list_to_map [("price", VInt 7)] in
  let t : gmap Z row := {[ 1%Z := fern ]} in
  let t' : gmap Z row := {[ 1%Z := fern_repriced ]} in
  ∃ r p' n,
    t !! 1%Z = Some r
    ∧ payload (make_response (jsonify (to_dict (load 1 fern_repriced))) 200)
        = Json (to_dict p')
    ∧ plant_id p' = VInt n
    ∧ t' !! n = Some (row_of p')
    ∧ (∀ a, a ∈ plant_attrs →
         getattr p' a = match m !! a with
                        | Some v => Some v
                        | None => getattr (load 1 r) a
                        end)
    ∧ (∀ j, j ≠ 1%Z → j ≠ n → t' !! j = t !! j).
Proof.
  intros m t t'.
  apply (C8_partial_update_overwrites_only_supplied no_inherited t t' 1 m _);
    reflexivity.
Defined.

(** ** Identifiers *)

Lemma foldr_max_ge (k : Z) (ks : list Z) x :
  x ∈ k :: ks → (x ≤ foldr Z.max k ks)%Z.
Proof.
  induction ks as [|k' ks IH]; cbn [foldr].
  - rewrite elem_of_cons, elem_of_nil. intros [->|[]]. lia.
  - rewrite !elem_of_cons. intros [->|[->|Hx]].
    + etrans; [apply IH; by left | lia].
    + lia.
    + etrans; [apply IH; by right | lia].
Qed.

(** The generated id is not in use. *)
Lemma next_id_fresh (t : gmap Z row) : t !! next_id t = None.
Proof.
  destruct (t !! next_id t) as [r|] eqn:E; [exfalso|done].
  apply elem_of_map_to_list in E.
  apply (list_elem_of_fmap_2 fst) in E. cbn [fst] in E.
  unfold next_id in E. destruct ((map_to_list t).*1) as [|k ks].
  - by apply elem_of_nil in E.
  - apply foldr_max_ge in E. lia.
Qed.

Lemma add_and_commit_fresh dflt (t : gmap Z row) name image price :
  add_and_commit dflt t name image price =
    let r := {| row_name := name; row_image := image; row_price := price;
                row_is_in_stock := dflt |} in
    Ok (<[next_id t := r]> t, load (next_id t) r).
Proof.
  unfold add_and_commit. rewrite next_id_fresh.
  by rewrite bool_decide_eq_false_2 by (intros [? ?]; done).
Qed.

(** [Plants.post] either leaves the table as it is or adds one row under
    the generated id, with status 201. *)
Lemma post_cases dflt (t : gmap Z row) data :
  (Plants_post dflt t data).1 = t
    ∧ (∀ resp, (Plants_post dflt t data).2 = Ok resp → status resp ≠ 201%Z)
  ∨ ∃ (m : gmap string value) name image price,
      data = VDict m
      ∧ m !! "name" = Some name ∧ m !! "image" = Some image
      ∧ m !! "price" = Some price
      ∧ let r := {| row_name := name; row_image := image; row_price := price;
                    row_is_in_stock := dflt |} in
        Plants_post dflt t data =
          (<[next_id t := r]> t,
           Ok (make_response
                 (jsonify (dict_of [("success", VBool true);
                                    ("data", to_dict (load (next_id t) r))]))
                 201)).
Proof.
  unfold Plants_post.
  destruct (truthy data); cbn [negb].
  2: { left. split; [done|]. by intros resp [= <-]. }
  destruct (validate_plant_data data false) as [[errors|]|e].
  1, 3: left; split; [done|]; by intros resp [= <-].
  destruct data as [| | | | | |m];
    try (left; split; [done|]; by intros resp [=]).
  cbn [subscript].
  destruct (m !! "name") as [name|] eqn:Hn;
    [|left; split; [done|]; by intros resp [=]].
  destruct (m !! "image") as [image|] eqn:Hi;
    [|left; split; [done|]; by intros resp [=]].
  destruct (m !! "price") as [price|] eqn:Hp;
    [|left; split; [done|]; by intros resp [=]].
  right. exists m, name, image, price. cbn [bind].
  by rewrite add_and_commit_fresh.
Qed.

(** ** Create, then get *)

(** C5: when a create request is answered 201, the body was a dict with a
    name, an image and a price; the response returns the created plant
    with its generated id, and a get by that id on the resulting table is
    answered 200 with the same plant: the name, image and price of the
    request, and the default of the store for [is_in_stock], whatever
    the request had under [is_in_stock]. *)
Theorem C5_create_then_get_round_trip
    (dflt : value) (t t' : gmap Z row) (data : value) (resp : response) :
  Plants_post dflt t data = (t', Ok resp) → status resp = 201%Z →
  ∃ (m : gmap string value) name image price i,
    data = VDict m
    ∧ m !! "name" = Some name ∧ m !! "image" = Some image
    ∧ m !! "price" = Some price
    ∧ let plant := {| plant_id := VInt i; plant_name := name;
                      plant_image := image; plant_price := price;
                      plant_is_in_stock := dflt |} in
      payload resp = Json (dict_of [("success", VBool true);
                                    ("data", to_dict plant)])
      ∧ PlantByID_get (Some t') i =
          (t', Ok (make_response (jsonify (to_dict plant)) 200)).
Proof.
  intros Hpost Hstatus.
  destruct (post_cases dflt t data) as [[_ Hno]|(m & name & image & price & Hrest)].
  { exfalso. apply (Hno resp); [by rewrite Hpost | done]. }
  destruct Hrest as (-> & Hn & Hi & Hp & Heq). cbn zeta in Heq.
  rewrite Heq in Hpost. injection Hpost as <- <-.
  exists m, name, image, price, (next_id t).
  split; [done|]. split; [done|]. split; [done|]. split; [done|].
  cbn zeta. split; [done|].
  unfold PlantByID_get, query_first. cbn [ensure_table].
  by rewrite lookup_insert_eq.
Qed.

Lemma C5_create_then_get_round_trip_witness :
  let t' : gmap Z row := {[ 1%Z := fern ]} in
  ∃ (m : gmap string value) name image price i,
    fern_body = VDict m
    ∧ m !! "name" = Some name ∧ m !! "image" = Some image
    ∧ m !! "price" = Some price
    ∧ let plant := {| plant_id := VInt i; plant_name := name;
                      plant_image := image; plant_price := price;
                      plant_is_in_stock := VBool true |} in
      payload (make_response
                 (jsonify (dict_of [("success", VBool true);
                                    ("data", to_dict (load 1 fern))])) 201)
        = Json (dict_of [("success", VBool true); ("data", to_dict plant)])
      ∧ PlantByID_get (Some t') i =
          (t', Ok (make_response (jsonify (to_dict plant)) 200)).
Proof.
  intros t'.
  apply (C5_create_then_get_round_trip (VBool true) ∅ t' fern_body _);
    reflexivity.
Defined.

(** ** Get and delete of a record that does not exist *)

(** C6: a get by an id under which the table has no record is answered
    404 with the body [{"error": "Plant with id <id> not found"}]; the
    table is the one that lines 97-111 made sure exists. *)
Theorem C6_get_missing_is_404 (db : option (gmap Z row)) (id : Z) :
  ensure_table db !! id = None →
  PlantByID_get db id =
    (ensure_table db,
     Ok (make_response
           (jsonify (dict_of
              [("error", VStr ("Plant with id " ++ str_of_int id ++ " not found"))]))
           404)).
Proof. intros H. unfold PlantByID_get, query_first. by rewrite H. Qed.

Lemma C6_get_missing_is_404_witness :
  PlantByID_get (Some ∅) 999 =
    (∅, Ok (make_response
              (jsonify (dict_of [("error", VStr "Plant with id 999 not found")]))
              404)).
Proof. apply (C6_get_missing_is_404 (Some ∅) 999). reflexivity. Defined.

(** The first get on a storage without table seeds the test plant and
    finds it under id 1. *)
Lemma get_seeds_missing_table :
  PlantByID_get None 1 =
    ({[ 1%Z := row_of test_plant ]},
     Ok (make_response (jsonify (to_dict test_plant)) 200)).
Proof. reflexivity. Qed.

Lemma delete_missing (t : gmap Z row) i :
  t !! i = None → PlantByID_delete t i = (t, Ok plant_not_found).
Proof. intros H. unfold PlantByID_delete, query_first. by rewrite H. Qed.

Lemma delete_existing (t : gmap Z row) i r :
  t !! i = Some r →
  PlantByID_delete t i = (delete i t, Ok (make_response (Text "") 204)).
Proof. intros H. unfold PlantByID_delete, query_first. by rewrite H. Qed.

(** C7: the delete of an id that has no record is answered 404 and leaves
    the table as it is; after any delete of an id, whether it removed a
    record or not, the id has no record, and a second delete of the same
    id is answered 404 and changes nothing. *)
Theorem C7_delete_missing_is_404_without_effect (t : gmap Z row) (i : Z) :
  (t !! i = None → PlantByID_delete t i = (t, Ok plant_not_found))
  ∧ (let t1 := (PlantByID_delete t i).1 in
     t1 !! i = None ∧ PlantByID_delete t1 i = (t1, Ok plant_not_found))
  ∧ status plant_not_found = 404%Z.
Proof.
  split; [apply delete_missing|]. split; [|done]. cbn zeta.
  assert ((PlantByID_delete t i).1 !! i = None) as Hgone.
  { destruct (t !! i) as [r|] eqn:E.
    - rewrite (delete_existing _ _ _ E). apply lookup_delete_eq.
    - by rewrite (delete_missing _ _ E). }
  split; [done|]. by apply delete_missing.
Qed.

Lemma C7_delete_missing_is_404_without_effect_witness :
  let t : gmap Z row := {[ 1%Z := fern ]} in
  PlantByID_delete t 2 = (t, Ok plant_not_found)
  ∧ PlantByID_delete t 1 = (∅, Ok (make_response (Text "") 204))
  ∧ PlantByID_delete (PlantByID_delete t 1).1 1 =
      ((PlantByID_delete t 1).1, Ok plant_not_found).
Proof.
  intros t. split; [|split].
  - exact (proj1 (C7_delete_missing_is_404_without_effect t 2) eq_refl).
  - reflexivity.
  - exact (proj2 (proj1 (proj2 (C7_delete_missing_is_404_without_effect t 1)))).
Defined.

(** ** Which requests can change an id *)

Lemma get_table (db : option (gmap Z row)) id :
  (PlantByID_get db id).1 = ensure_table db.
Proof. unfold PlantByID_get. by destruct (query_first (ensure_table db) id). Qed.

Lemma set_from_list_Ok cls (obj obj' : Plant * bool) l :
  set_from_list cls obj l = Ok obj' → obj' = obj.
Proof.
  induction l as [|v l IH]; cbn.
  - by intros [= <-].
  - destruct v; try done. by destruct (hasattr cls s).
Qed.

Lemma set_from_str_Ok cls (obj obj' : Plant * bool) s :
  set_from_str cls obj s = Ok obj' → obj' = obj.
Proof.
  induction s as [|c s IH]; cbn.
  - by intros [= <-].
  - by destruct (hasattr cls (String c EmptyString)).
Qed.

Lemma set_attrs_keeps_id cls i r data p' b n :
  rekeys (PatchPlant i data) = false →
  set_attrs cls (load i r) data = Ok (p', b) → plant_id p' = VInt n → n = i.
Proof.
  destruct data as [| | | |s|l|m]; try (cbn; done).
  - intros _ H. cbn in H. apply set_from_str_Ok in H as [= -> ->].
    by intros [= <-].
  - intros _ H. cbn in H. apply set_from_list_Ok in H as [= -> ->].
    by intros [= <-].
  - intros Hid (-> & _ & _)%set_attrs_dict_Ok.
    cbn [rekeys] in Hid. cbn [merged plant_id load].
    destruct (m !! "id") as [[| |z| | | |]|]; cbn [from_option id];
      intros [= <-]; [|done].
    apply negb_false_iff, Z.eqb_eq in Hid. done.
Qed.

(** A partial update either leaves the table as it is or replaces one
    row by a row stored under an id that was the row's own or not in
    use. *)
Lemma patch_cases cls (t : gmap Z row) i data :
  (PlantByID_patch cls t i data).1 = t
  ∨ ∃ r p' b n,
      t !! i = Some r
      ∧ set_attrs cls (load i r) data = Ok (p', b)
      ∧ plant_id p' = VInt n
      ∧ (n = i ∨ t !! n = None)
      ∧ (PlantByID_patch cls t i data).1 = <[n := row_of p']> (delete i t).
Proof.
  unfold PlantByID_patch, query_first. cbn zeta.
  destruct (t !! i) as [r|] eqn:Hi; cbn [fmap option_fmap option_map]; [|by left].
  destruct (truthy data); cbn [negb]; [|by left].
  destruct (set_attrs cls (load i r) data) as [[p' b]|e] eqn:Hset; [|by left].
  destruct (commit_update t i p') as [t'|e] eqn:Hcommit; [|by left].
  destruct (commit_update_Ok _ _ _ _ Hcommit) as (n & Hn & Hfree & ->).
  right. exists r, p', b, n. by destruct b.
Qed.

Lemma carries_other_id_rekeys (q : request) :
  carries_other_id q = false → rekeys q = false.
Proof.
  destruct q as [|data|id|id data|id]; try done.
  destruct data as [| | | | | |m]; try done. cbn [carries_other_id rekeys].
  by destruct (m !! "id") as [[]|].
Qed.

(** Serving a request that does not re-key keeps every record under its
    id. *)
Lemma handle_keeps_ids cls dflt (q : request) (t : gmap Z row) :
  rekeys q = false → ids_kept cls dflt q t.
Proof.
  intros Hq. unfold ids_kept, handle. cbn zeta. cbn [fst snd].
  destruct q as [|data|id|id data|id].
  - cbn. split; [done|]. intros j [? ?] ?. congruence.
  - destruct (post_cases dflt t data)
      as [[-> _]|(m & name & image & price & -> & _ & _ & _ & Heq)].
    + split; [done|]. intros j [? ?] ?. congruence.
    + cbn zeta in Heq. rewrite Heq. cbn [fst]. split.
      * intros i [r Hi] _. destruct (decide (next_id t = i)) as [<-|Hne].
        -- by rewrite next_id_fresh in Hi.
        -- rewrite lookup_insert_ne by done. by eexists.
      * intros j Hj Hnone. exists (VDict m). split; [done|].
        destruct (decide (next_id t = j)) as [<-|Hne]; [done|].
        rewrite lookup_insert_ne in Hj by done.
        destruct Hj. congruence.
  - rewrite get_table. cbn [ensure_table].
    split; [done|]. intros j [? ?] ?. congruence.
  - destruct (patch_cases cls t id data)
      as [->|(r & p' & b & n & Hi & Hset & Hn & _ & ->)].
    + split; [done|]. intros j [? ?] ?. congruence.
    + rewrite (set_attrs_keeps_id _ _ _ _ _ _ _ Hq Hset Hn).
      rewrite insert_delete_eq. split.
      * intros i [r0 Hr0] _. destruct (decide (id = i)) as [<-|Hne].
        -- rewrite lookup_insert_eq. by eexists.
        -- rewrite lookup_insert_ne by done. by eexists.
      * intros j Hj Hnone. destruct (decide (id = j)) as [<-|Hne].
        -- congruence.
        -- rewrite lookup_insert_ne in Hj by done. destruct Hj. congruence.
  - destruct (t !! id) as [r|] eqn:Hid.
    + rewrite (delete_existing _ _ _ Hid). cbn [fst]. split.
      * intros i Hi Hne. rewrite lookup_delete_ne; [done|]. congruence.
      * intros j [r' Hj] Hnone. apply lookup_delete_Some in Hj as [_ Hj].
        congruence.
    + rewrite (delete_missing _ _ Hid). cbn [fst].
      split; [done|]. intros j [? ?] ?. congruence.
Qed.

(** C1, as amended: serving any request other than a partial update
    whose body has an [id] that is not the id of the request keeps every
    record under the id that the store gave it. A partial update of an
    existing record whose body has an integer [id] that is not the id of
    the request and is not in use, and no key whose assignment raises,
    stores the record under the id of the body and leaves no record under
    the former id; the other records stay where they are, and the answer
    is 200 with the re-keyed record when no key of the body hides
    [to_dict]. *)
Theorem C1_id_kept_unless_patch_rekeys
    (cls : plant_class) (dflt : value) (t : gmap Z row) :
  (∀ q, carries_other_id q = false → ids_kept cls dflt q t)
  ∧ (∀ i r (m : gmap string value) n,
       t !! i = Some r → m !! "id" = Some (VInt n) → n ≠ i →
       t !! n = None → body_accepted cls m = true →
       let out := handle cls dflt (PatchPlant i (VDict m)) t in
       plant_id (merged (load i r) m) = VInt n
       ∧ out.1 !! i = None
       ∧ out.1 !! n = Some (row_of (merged (load i r) m))
       ∧ (∀ j, j ≠ i → j ≠ n → out.1 !! j = t !! j)
       ∧ (body_clean cls m = true →
            out.2 = make_response
                      (jsonify (to_dict (merged (load i r) m))) 200)).
Proof.
  split.
  - intros q Hq. by apply handle_keeps_ids, carries_other_id_rekeys.
  - intros i r m n Hi Hid Hne Hfree Hacc. cbn zeta. unfold handle. cbn zeta.
    cbn [fst snd].
    rewrite (patch_dict_outcome cls t i r m Hi (truthy_dict_lookup _ _ _ Hid)), Hacc.
    assert (plant_id (merged (load i r) m) = VInt n) as Hn.
    { cbn [merged plant_id]. by rewrite Hid. }
    assert (commit_update t i (merged (load i r) m) =
              Ok (<[n := row_of (merged (load i r) m)]> (delete i t))) as ->.
    { unfold commit_update. rewrite Hn, Hfree.
      rewrite bool_decide_eq_false_2 by done.
      by rewrite bool_decide_eq_false_2 by (intros [? ?]; done). }
    split; [done|].
    destruct (existsb (shadows cls) (map_to_list m)) eqn:Hsh; cbn [fst snd].
    + split; [by rewrite lookup_insert_ne, lookup_delete_eq|].
      split; [by rewrite lookup_insert_eq|]. split.
      * intros j Hji Hjn. by rewrite lookup_insert_ne, lookup_delete_ne.
      * intros [_ Hclean]%body_clean_split. congruence.
    + split; [by rewrite lookup_insert_ne, lookup_delete_eq|].
      split; [by rewrite lookup_insert_eq|]. split.
      * intros j Hji Hjn. by rewrite lookup_insert_ne, lookup_delete_ne.
      * done.
Qed.

Lemma C1_id_kept_unless_patch_rekeys_witness :
  let t : gmap Z row := {[ 1%Z := fern ]} in
  let out := handle no_inherited VNone (PatchPlant 1 (dict_of [("id", VInt 2)])) t in
  ids_kept no_inherited VNone
    (PatchPlant 1 (dict_of [("price", VInt 7); ("id", VInt 1)])) t
  ∧ out.1 !! 1%Z = None
  ∧ out.1 !! 2%Z = Some fern
  ∧ out.2 = make_response (jsonify (to_dict (load 2 fern))) 200.
Proof.
  intros t out.
  destruct (C1_id_kept_unless_patch_rekeys no_inherited VNone t) as [Hkept Hmoved].
  split.
  - apply Hkept. reflexivity.
  - destruct (Hmoved 1%Z fern (list_to_map [("id", VInt 2)]) 2%Z)
      as (_ & Hgone & Hthere & _ & Hresp);
      [reflexivity | reflexivity | discriminate | reflexivity | reflexivity |].
    split; [exact Hgone|]. split; [exact Hthere|]. apply Hresp. reflexivity.
Defined.

(** C1, as stated, fails: the partial update of record 1 with [{"id": 2}]
    is answered 200 and the record is stored under id 2 from then on;
    id 1 has no record any more. *)
Lemma C1_patch_with_id_changes_the_id :
  let t : gmap Z row := {[ 1%Z := fern ]} in
  let q := PatchPlant 1 (dict_of [("id", VInt 2)]) in
  t !! 1%Z = Some fern
  ∧ handle no_inherited VNone q t =
      ({[ 2%Z := fern ]}, make_response (jsonify (to_dict (load 2 fern))) 200)
  ∧ (handle no_inherited VNone q t).1 !! 1%Z = None
  ∧ ¬ ids_kept no_inherited VNone q t.
Proof.
  intros t q. split; [reflexivity|]. split; [reflexivity|].
  split; [reflexivity|].
  intros [Hkept _]. destruct (Hkept 1%Z) as [r' Hr'].
  - by exists fern.
  - discriminate.
  - discriminate Hr'.
Qed.

(** ** Counting records *)

Lemma size_existing (t : gmap Z row) i r :
  t !! i = Some r → size t = S (size (delete i t)).
Proof.
  intros Hi. rewrite <-(insert_delete_id t i r Hi) at 1.
  rewrite map_size_insert_None; [done|]. apply lookup_delete_eq.
Qed.




Lemma length_query_all (t : gmap Z row) : length (query_all t) = size t.
Proof. unfold query_all. by rewrite length_fmap, length_map_to_list. Qed.


(** Three creates, one of them refused, and two deletes, one of them of
    an id without record: one record is listed. *)
Example list_after_two_creates_and_one_delete :
  let out := run no_inherited VNone [CreatePlant fern_body;
                        CreatePlant (dict_of [("name", VStr "")]);
                        CreatePlant fern_body; DeletePlant 1; DeletePlant 7] ∅ in
  count_if is_created out.2 = 2 ∧ count_if is_deleted out.2 = 1
  ∧ size out.1 = 1
  ∧ status <$> out.2.*2 = [201; 400; 201; 204; 404]%Z.
Proof. repeat split. Qed.


(** * Further properties of the validator and of the handlers *)

(** ** What the validator accepts *)

Lemma strip_all_space (s : string) : strip s = "" ↔ all_space s = true.
Proof.
  unfold strip. induction s as [|c s IH]; cbn [lstrip all_space].
  - done.
  - destruct (isspace c) eqn:Hc; cbn [andb]; [done|].
    cbn [rstrip]. rewrite Hc. split; [|done].
    by destruct (rstrip s).
Qed.

Lemma nonblank_all_space (s : string) :
  (String.length (strip s) =? 0)%nat = all_space s.
Proof.
  destruct (all_space s) eqn:E.
  - apply strip_all_space in E. by rewrite E.
  - destruct (strip s) eqn:Hs; [|done].
    apply strip_all_space in Hs. congruence.
Qed.

Lemma validate_dict_steps (m : gmap string value) partial :
  validate_plant_data (VDict m) partial =
    let! errors := name_step m (if partial then ∅ else missing_errors m) in
    Ok (verdict (price_step m errors)).
Proof.
  unfold validate_plant_data, name_step, price_step, missing_errors.
  fold verdict.
  destruct partial;
    cbn [check_required required_fields contains bind dict_get subscript];
    (destruct (m !! "name") as [[| | | |s| |]|]; cbn [bind bool_decide decide_rel is_Some_dec from_option str_strip id];
     try reflexivity; destruct (m !! "price"); reflexivity).
Qed.

Lemma verdict_None (errors : gmap string string) :
  verdict errors = None ↔ errors = ∅.
Proof.
  unfold verdict. split.
  - destruct (size errors) eqn:E; [|done]. intros _. by apply map_size_empty_iff.
  - intros ->. by rewrite map_size_empty.
Qed.

Lemma missing_errors_empty (m : gmap string value) :
  missing_errors m = ∅ ↔
  is_Some (m !! "name") ∧ is_Some (m !! "image") ∧ is_Some (m !! "price").
Proof.
  unfold missing_errors.
  destruct (m !! "name"), (m !! "image"), (m !! "price");
    cbn [bool_decide decide_rel is_Some_dec]; split;
    try (intros H; by apply insert_non_empty in H);
    try (intros (H1 & H2 & H3); by (apply is_Some_None in H1 || apply is_Some_None in H2 || apply is_Some_None in H3)).
  - intros _. repeat split; by eexists.
  - done.
Qed.

Lemma price_step_empty (m : gmap string value) errors :
  price_step m errors = ∅ ↔
  errors = ∅ ∧ ∀ p, m !! "price" = Some p → isinstance_int_float p = true.
Proof.
  unfold price_step. destruct (m !! "price") as [p|].
  - destruct (isinstance_int_float p) eqn:Hp; cbn [negb]; split.
    + intros ->. split; [done|]. by intros ? [= <-].
    + by intros [-> _].
    + intros H. by apply insert_non_empty in H.
    + intros [_ H]. specialize (H p eq_refl). congruence.
  - split; [by intros ->|by intros [-> _]].
Qed.

Lemma validate_dict_accepts (m : gmap string value) :
  validate_plant_data (VDict m) false = Ok None ↔ valid_body m = true.
Proof.
  rewrite validate_dict_steps. unfold name_step, valid_body, nonblank_str.
  destruct (m !! "name") as [v|] eqn:Hn.
  2: { cbn [bind]. split; [|done]. intros [= H].
       apply verdict_None, price_step_empty in H as [H _].
       apply missing_errors_empty in H as ([? ?] & _). congruence. }
  destruct v as [| | | |s| |]; cbn [bind];
    try (split; intros H; [discriminate H | by destruct (m !! "image"), (m !! "price")]).
  destruct (String.length (strip s) =? 0)%nat eqn:Hs; cbn [negb andb].
  - split; [|by destruct (m !! "image"), (m !! "price")].
    intros [= H]. apply verdict_None, price_step_empty in H as [H _].
    by apply insert_non_empty in H.
  - split.
    + intros [= H]. apply verdict_None, price_step_empty in H as [H Hp].
      apply missing_errors_empty in H as (_ & [? ->] & [p Hprice]).
      rewrite Hprice. by apply Hp.
    + destruct (m !! "image") as [i|] eqn:Hi; [|done].
      destruct (m !! "price") as [p|] eqn:Hp; [|done]. intros Hnum.
      f_equal. apply verdict_None, price_step_empty. split.
      * apply missing_errors_empty. rewrite Hn, Hi, Hp. repeat split; by eexists.
      * intros ? ?. by simplify_eq.
Qed.

(** X1: on a dict, the validator of a create request returns no error
    exactly when the name is a string that does not trim to the empty
    string, the image is present, and the price is an instance of [int]
    or [float]. *)
Theorem validate_accepts_iff_valid (m : gmap string value) :
  validate_plant_data (VDict m) false = Ok None ↔ valid_body m = true.
Proof. split; apply validate_dict_accepts. Qed.

(** X2: with [partial=True] the validator requires no field: on a dict it
    returns no error exactly when the name, if present, is a string that
    does not trim to the empty string and the price, if present, is an
    instance of [int] or [float]. *)
Theorem validate_partial_accepts_iff_valid (m : gmap string value) :
  validate_plant_data (VDict m) true = Ok None ↔ valid_partial_body m = true.
Proof.
  rewrite validate_dict_steps. unfold name_step, valid_partial_body, nonblank_str.
  destruct (m !! "name") as [v|] eqn:Hn.
  2: { cbn [bind andb]. split.
       - intros [= H]. apply verdict_None, price_step_empty in H as [_ H].
         destruct (m !! "price") as [p|]; [by apply H | done].
       - intros H. f_equal. apply verdict_None, price_step_empty.
         split; [done|]. intros p Hp. by rewrite Hp in H. }
  destruct v as [| | | |s| |]; cbn [bind andb];
    try (split; intros H; [discriminate H | done]).
  destruct (String.length (strip s) =? 0)%nat eqn:Hs; cbn [negb andb].
  - split; [|done]. intros [= H].
    apply verdict_None, price_step_empty in H as [H _].
    by apply insert_non_empty in H.
  - split.
    + intros [= H]. apply verdict_None, price_step_empty in H as [_ H].
      destruct (m !! "price") as [p|]; [by apply H | done].
    + intros H. f_equal. apply verdict_None, price_step_empty.
      split; [done|]. intros p Hp. by rewrite Hp in H.
Qed.

Lemma missing_errors_present (m : gmap string value) f :
  is_Some (m !! f) → missing_errors m !! f = None.
Proof.
  intros Hf. unfold missing_errors.
  repeat case_bool_decide;
    repeat (rewrite lookup_insert; case_decide; [by subst|]);
    apply lookup_empty.
Qed.

Lemma price_step_lookup_name (m : gmap string value) errors :
  price_step m errors !! "name" = errors !! "name".
Proof.
  unfold price_step. destruct (m !! "price") as [p|]; [|done].
  destruct (negb (isinstance_int_float p)); [|done].
  by rewrite lookup_insert_ne.
Qed.

Lemma verdict_Some (errors errors' : gmap string string) :
  verdict errors = Some errors' → errors' = errors.
Proof. unfold verdict. destruct (negb _); by intros [=]. Qed.

(** X3: for a dict whose name is a string, the validator reports "Name
    cannot be empty" exactly when every character of the name is
    whitespace (the empty name included), in both modes. *)
Theorem blank_name_reported_iff_all_space
    (m : gmap string value) (s : string) (partial : bool) :
  m !! "name" = Some (VStr s) →
  (∃ errors, validate_plant_data (VDict m) partial = Ok (Some errors)
             ∧ errors !! "name" = Some "Name cannot be empty")
  ↔ all_space s = true.
Proof.
  intros Hn. rewrite validate_dict_steps. unfold name_step. rewrite Hn.
  cbn [bind]. rewrite nonblank_all_space.
  set (e0 := if partial then ∅ else missing_errors m).
  assert (e0 !! "name" = None) as He0.
  { unfold e0. destruct partial; [done|].
    apply missing_errors_present. by eexists. }
  destruct (all_space s); split; try done.
  - intros _. eexists. split.
    + f_equal. eapply verdict_lookup.
      rewrite price_step_lookup_name. apply lookup_insert_eq.
    + rewrite price_step_lookup_name. apply lookup_insert_eq.
  - intros (errors & [= Hv] & Hname). apply verdict_Some in Hv as ->.
    rewrite price_step_lookup_name in Hname. congruence.
Qed.

Lemma blank_name_reported_iff_all_space_witness :
  (∃ errors,
     validate_plant_data (dict_of [("name", VStr "  ")]) true = Ok (Some errors)
     ∧ errors !! "name" = Some "Name cannot be empty")
  ↔ all_space "  " = true.
Proof.
  apply (blank_name_reported_iff_all_space
           (list_to_map [("name", VStr "  ")]) "  " true).
  reflexivity.
Defined.

Lemma reportable_insert (errors : gmap string string) f msg :
  reportable f msg → map_Forall (λ f msg, reportable f msg) errors →
  map_Forall (λ f msg, reportable f msg) (<[f := msg]> errors).
Proof. intros. by apply map_Forall_insert_2. Qed.

Lemma check_required_reportable data fields errors errors' :
  check_required data fields errors = Ok errors' →
  (∀ f, f ∈ fields → f ∈ required_fields) →
  map_Forall (λ f msg, reportable f msg) errors →
  map_Forall (λ f msg, reportable f msg) errors'.
Proof.
  revert errors. induction fields as [|f fields IH]; intros errors; cbn [check_required].
  - by intros [= <-].
  - destruct (contains data f) as [present|]; cbn [bind]; [|done].
    intros Hrec Hsub Herr. apply (IH _ Hrec).
    + intros f' Hf'. apply Hsub. by right.
    + destruct present; [done|]. apply reportable_insert; [|done].
      left. split; [|done]. apply Hsub. by left.
Qed.

(** X4: whenever the validator returns a mapping of errors, on any body
    and in both modes, the mapping is not empty and each of its entries is
    one of: a required field with "This field is required", [name] with
    "Name cannot be empty", [price] with "Price must be a number". *)
Theorem validate_reports_only_known_errors
    (data : value) (partial : bool) (errors : gmap string string) :
  validate_plant_data data partial = Ok (Some errors) →
  errors ≠ ∅ ∧ ∀ f msg, errors !! f = Some msg → reportable f msg.
Proof.
  unfold validate_plant_data. fold verdict. intros H.
  assert (∃ e0, (if partial then Ok ∅
                 else check_required data required_fields ∅) = Ok e0
                ∧ map_Forall (λ f msg, reportable f msg) e0) as (e0 & He0 & Hrep0).
  { destruct partial.
    - eexists. split; [done|]. apply map_Forall_empty.
    - destruct (check_required data required_fields ∅) as [e0|] eqn:E; [|done].
      exists e0. split; [done|].
      eapply check_required_reportable; [done|done|apply map_Forall_empty]. }
  rewrite He0 in H. cbn [bind] in H.
  destruct (contains data "name") as [has_name|]; cbn [bind] in H; [|done].
  assert (∃ e1, (if has_name then
                   let! name := dict_get data "name" (VStr "") in
                   let! stripped := str_strip name in
                   Ok (if (String.length stripped =? 0)%nat
                       then <["name" := "Name cannot be empty"]> e0 else e0)
                 else Ok e0) = Ok e1
                ∧ map_Forall (λ f msg, reportable f msg) e1) as (e1 & He1 & Hrep1).
  { destruct has_name; [|by eexists].
    destruct (dict_get data "name" (VStr "")) as [name|]; cbn [bind] in *; [|done].
    destruct (str_strip name) as [stripped|]; cbn [bind] in *; [|done].
    eexists. split; [done|].
    destruct (String.length stripped =? 0)%nat; [|done].
    apply reportable_insert; [|done]. right. by left. }
  rewrite He1 in H. cbn [bind] in H.
  destruct (contains data "price") as [has_price|]; cbn [bind] in H; [|done].
  assert (∃ e2, (if has_price then
                   let! price := subscript data "price" in
                   Ok (if negb (isinstance_int_float price)
                       then <["price" := "Price must be a number"]> e1 else e1)
                 else Ok e1) = Ok e2
                ∧ map_Forall (λ f msg, reportable f msg) e2) as (e2 & He2 & Hrep2).
  { destruct has_price; [|by eexists].
    destruct (subscript data "price") as [price|]; cbn [bind] in *; [|done].
    eexists. split; [done|].
    destruct (negb (isinstance_int_float price)); [|done].
    apply reportable_insert; [|done]. right. by right. }
  rewrite He2 in H. cbn [bind] in H. injection H as H.
  pose proof (verdict_Some _ _ H) as ->. split; [|exact Hrep2].
  intros Hempty. apply verdict_None in Hempty. unfold verdict in Hempty.
  congruence.
Qed.

Lemma validate_reports_only_known_errors_witness :
  let errors : gmap string string :=
    <["price" := "This field is required"]>
      (<["name" := "Name cannot be empty"]> {[ "image" := "This field is required" ]}) in
  errors ≠ ∅ ∧ ∀ f msg, errors !! f = Some msg → reportable f msg.
Proof.
  intros errors.
  apply (validate_reports_only_known_errors (dict_of [("name", VStr " ")]) false).
  reflexivity.
Defined.

(** X5: a create request whose body is a non-zero number or [true] makes
    the membership test of line 41 raise [TypeError]; the exception leaves
    [Plants.post], nothing is persisted and the request is answered by the
    handler of 500. *)
Theorem post_scalar_body_raises
    (cls : plant_class) (dflt : value) (t : gmap Z row) (data : value) :
  is_scalar data = true → truthy data = true →
  validate_plant_data data false = Raise TypeError
  ∧ Plants_post dflt t data = (t, Raise TypeError)
  ∧ handle cls dflt (CreatePlant data) t = (t, server_error).
Proof.
  intros Hs Ht.
  assert (validate_plant_data data false = Raise TypeError) as Hv.
  { by destruct data. }
  assert (Plants_post dflt t data = (t, Raise TypeError)) as Hp.
  { unfold Plants_post. by rewrite Ht, Hv. }
  split; [done|]. split; [done|]. unfold handle. by rewrite Hp.
Qed.

Lemma post_scalar_body_raises_witness :
  validate_plant_data (VInt 5) false = Raise TypeError
  ∧ Plants_post VNone ∅ (VInt 5) = (∅, Raise TypeError)
  ∧ handle no_inherited VNone (CreatePlant (VInt 5)) ∅ = (∅, server_error).
Proof.
  apply (post_scalar_body_raises no_inherited VNone ∅ (VInt 5)); reflexivity.
Defined.

(** ** Create *)

Lemma truthy_false_iff (data : value) : truthy data = false ↔ empty_body data.
Proof.
  unfold empty_body. split.
  - destruct data as [|b|z|q|s|l|m]; cbn [truthy]; intros H.
    + by left.
    + right. left. by subst.
    + right. right. left. apply negb_false_iff, Z.eqb_eq in H. by subst.
    + do 3 right. left. exists q. split; [done|].
      by apply negb_false_iff, Z.eqb_eq in H.
    + do 4 right. left. by destruct s.
    + do 5 right. left. by destruct l.
    + do 6 right. f_equal. apply map_size_empty_iff.
      by apply negb_false_iff, Nat.eqb_eq in H.
  - intros [->|[->|[->|[(q & -> & Hq)|[->|[->| ->]]]]]]; try done.
    cbn [truthy]. by rewrite Hq.
Qed.

(** X6: [Plants.post] answers 400 "No data provided" exactly for the
    bodies that Python takes for false: [null], [false], [0], [0.0], the
    empty string, the empty list and the empty dict. *)
Theorem post_no_data_iff_empty_body (dflt : value) (t : gmap Z row) (data : value) :
  Plants_post dflt t data = (t, Ok no_data_provided) ↔ empty_body data.
Proof.
  rewrite <-truthy_false_iff. unfold Plants_post.
  destruct (truthy data); cbn [negb]; split; try done.
  destruct (validate_plant_data data false) as [[errors|]|e]; [|..|done].
  - by intros [= H].
  - destruct (let! name := subscript data "name" in
              let! image := subscript data "image" in
              let! price := subscript data "price" in
              add_and_commit dflt t name image price) as [[t' p]|[]]; done.
Qed.

Lemma post_dict_valid dflt (t : gmap Z row) (m : gmap string value) :
  valid_body m = true →
  ∃ name image price,
    m !! "name" = Some name ∧ m !! "image" = Some image
    ∧ m !! "price" = Some price
    ∧ nonblank_str name = true ∧ isinstance_int_float price = true
    ∧ let r := {| row_name := name; row_image := image; row_price := price;
                  row_is_in_stock := dflt |} in
      Plants_post dflt t (VDict m) =
        (<[next_id t := r]> t,
         Ok (make_response
               (jsonify (dict_of [("success", VBool true);
                                  ("data", to_dict (load (next_id t) r))]))
               201)).
Proof.
  intros Hvalid. pose proof Hvalid as Hv.
  apply validate_dict_accepts in Hv. unfold valid_body in Hvalid.
  destruct (m !! "name") as [name|] eqn:Hn; [|done].
  destruct (m !! "image") as [image|] eqn:Hi; [|done].
  destruct (m !! "price") as [price|] eqn:Hp; [|done].
  apply andb_true_iff in Hvalid as [Hname Hprice].
  exists name, image, price. do 5 (split; [done|]). cbn zeta.
  unfold Plants_post. rewrite (truthy_dict_lookup _ _ _ Hn), Hv.
  cbn [negb subscript]. rewrite Hn, Hi, Hp. cbn [bind].
  by rewrite add_and_commit_fresh.
Qed.

Lemma post_created_valid dflt (t t' : gmap Z row) data resp :
  Plants_post dflt t data = (t', Ok resp) → status resp = 201%Z →
  ∃ m, data = VDict m ∧ valid_body m = true.
Proof.
  intros Hpost Hstatus.
  destruct (post_cases dflt t data) as [[_ Hno]|(m & name & image & price & Hrest)].
  { exfalso. apply (Hno resp); [by rewrite Hpost | done]. }
  destruct Hrest as (-> & _). exists m. split; [done|].
  apply validate_dict_accepts.
  unfold Plants_post in Hpost.
  destruct (truthy (VDict m)); cbn [negb] in Hpost; [|by simplify_eq].
  destruct (validate_plant_data (VDict m) false) as [[errors|]|e]; by simplify_eq.
Qed.

(** X7: [Plants.post] answers 201 exactly when the body is a dict with a
    name that is a non-blank string, an image, and a price that is an
    instance of [int] or [float]. *)
Theorem post_creates_iff_valid (dflt : value) (t : gmap Z row) (data : value) :
  (∃ t' resp, Plants_post dflt t data = (t', Ok resp) ∧ status resp = 201%Z)
  ↔ ∃ m, data = VDict m ∧ valid_body m = true.
Proof.
  split.
  - intros (t' & resp & Hpost & Hstatus). by eapply post_created_valid.
  - intros (m & -> & Hvalid).
    destruct (post_dict_valid dflt t m Hvalid) as (name & image & price & _ & _ & _ & _ & _ & Heq).
    cbn zeta in Heq. rewrite Heq. by do 2 eexists.
Qed.

(** X8: [Plants.post] never changes or removes a record: every record of
    the table is in the resulting table as it was; the table is either
    unchanged or has one more record, and then the answer is 201. *)
Theorem post_keeps_existing_records (dflt : value) (t : gmap Z row) (data : value) :
  let out := Plants_post dflt t data in
  (∀ i r, t !! i = Some r → out.1 !! i = Some r)
  ∧ (out.1 = t
     ∨ size out.1 = S (size t)
       ∧ ∃ resp, out.2 = Ok resp ∧ status resp = 201%Z).
Proof.
  cbn zeta.
  destruct (post_cases dflt t data)
    as [[-> _]|(m & name & image & price & -> & _ & _ & _ & Heq)].
  - split; [done|]. by left.
  - cbn zeta in Heq. rewrite Heq. cbn [fst snd]. split.
    + intros i r Hi. rewrite lookup_insert_ne; [done|].
      intros <-. by rewrite next_id_fresh in Hi.
    + right. split; [|by eexists].
      apply map_size_insert_None, next_id_fresh.
Qed.

(** ** Rows of a table that no partial update touched *)

Lemma handle_keeps_rows_as_created cls dflt (q : request) (t : gmap Z row) :
  is_patch q = false →
  map_Forall (λ _ r, as_created dflt r) t →
  map_Forall (λ _ r, as_created dflt r) (handle cls dflt q t).1.
Proof.
  intros Hq Ht. unfold handle. cbn zeta. cbn [fst].
  destruct q as [|data|id|id data|id]; try done.
  - destruct (post_cases dflt t data)
      as [[-> _]|(m & name & image & price & -> & Hn & Hi & Hp & Heq)]; [done|].
    cbn zeta in Heq.
    assert (valid_body m = true) as Hvalid.
    { destruct (post_created_valid _ _ _ _ _ Heq eq_refl) as (m' & [= <-] & Hv).
      exact Hv. }
    rewrite Heq. cbn [fst]. apply map_Forall_insert_2; [|done].
    unfold valid_body in Hvalid. rewrite Hn, Hi, Hp in Hvalid.
    apply andb_true_iff in Hvalid as [? ?]. by repeat split.
  - by rewrite get_table.
  - destruct (t !! id) as [r|] eqn:Hid.
    + rewrite (delete_existing _ _ _ Hid). cbn [fst]. by apply map_Forall_delete.
    + by rewrite (delete_missing _ _ Hid).
Qed.

(** X9: as long as no partial update is served, every stored row is as
    [Plants.post] writes it: the name is a non-blank string, the price is
    an instance of [int] or [float], and [is_in_stock] is the default of
    the store. *)
Theorem run_without_patch_keeps_rows_as_created
    (cls : plant_class) (dflt : value) (qs : list request) (t : gmap Z row) :
  forallb (λ q, negb (is_patch q)) qs = true →
  map_Forall (λ _ r, as_created dflt r) t →
  map_Forall (λ _ r, as_created dflt r) (run cls dflt qs t).1.
Proof.
  revert t. induction qs as [|q qs IH]; intros t Hqs Ht; cbn [run].
  - done.
  - cbn [forallb] in Hqs. apply andb_true_iff in Hqs as [Hq Hqs].
    apply negb_true_iff in Hq.
    pose proof (handle_keeps_rows_as_created cls dflt q t Hq Ht) as Ht'.
    destruct (handle cls dflt q t) as [t' resp]. cbn [fst] in Ht'.
    specialize (IH t' Hqs Ht').
    by destruct (run cls dflt qs t') as [t'' log].
Qed.

Lemma run_without_patch_keeps_rows_as_created_witness :
  map_Forall (λ _ r, as_created VNone r)
    (run no_inherited VNone
       [CreatePlant fern_body; DeletePlant 3; CreatePlant fern_body;
        GetPlant 1; ListPlants] ∅).1.
Proof.
  apply (run_without_patch_keeps_rows_as_created no_inherited VNone
           [CreatePlant fern_body; DeletePlant 3; CreatePlant fern_body;
            GetPlant 1; ListPlants] ∅).
  - reflexivity.
  - apply map_Forall_empty.
Defined.

(** ** List *)

(** X10: [Plants.get] leaves the table as it is and answers 200 with
    exactly the records of the table: a dict is in [data] if and only if
    it is [to_dict] of a stored record, and [count] is the number of
    records. *)
Theorem list_returns_every_record (t : gmap Z row) :
  ∃ plants,
    Plants_get t =
      (t, Ok (make_response
                (jsonify (dict_of [("success", VBool true);
                                   ("data", VList plants);
                                   ("count", VInt (Z.of_nat (length plants)))]))
                200))
    ∧ length plants = size t
    ∧ ∀ v, v ∈ plants ↔ ∃ i r, t !! i = Some r ∧ v = to_dict (load i r).
Proof.
  exists (to_dict <$> query_all t). split; [done|]. split.
  - by rewrite length_fmap, length_query_all.
  - intros v. unfold query_all. rewrite <-list_fmap_compose. split.
    + intros ([i r] & -> & Hir)%list_elem_of_fmap.
      apply elem_of_map_to_list in Hir. by exists i, r.
    + intros (i & r & Hir & ->). apply list_elem_of_fmap.
      exists (i, r). split; [done|]. by apply elem_of_map_to_list.
Qed.

(** ** Get *)

(** X12: on a storage without table, [PlantByID.get] creates the table
    with the seed plant under id 1 and answers 200 for id 1 and 404 for
    every other id. *)
Theorem get_without_table_finds_only_the_seed (id : Z) :
  ∃ resp,
    PlantByID_get None id = ({[ 1%Z := row_of test_plant ]}, Ok resp)
    ∧ (status resp = 200%Z ↔ id = 1%Z)
    ∧ (status resp = 404%Z ↔ id ≠ 1%Z).
Proof.
  unfold PlantByID_get, query_first. cbn [ensure_table].
  destruct (decide (id = 1%Z)) as [->|Hne].
  - rewrite lookup_singleton_eq. cbn [fmap option_fmap option_map].
    eexists. split; [done|]. cbn [status]. by split.
  - rewrite lookup_singleton_ne by done. cbn [fmap option_fmap option_map].
    eexists. split; [done|]. cbn [status]. by split.
Qed.

(** ** Partial update *)

Lemma shadows_to_dict cls (m : gmap string value) v :
  m !! "to_dict" = Some v → existsb (shadows cls) (map_to_list m) = true.
Proof.
  intros Hv. apply existsb_exists. exists ("to_dict", v). split; [|done].
  by apply list_elem_of_In, elem_of_map_to_list.
Qed.

(** The outcomes of [PlantByID.patch]. *)
Lemma patch_outcomes cls (t : gmap Z row) i data :
  (t !! i = None ∧ PlantByID_patch cls t i data = (t, Ok plant_not_found))
  ∨ (is_Some (t !! i) ∧ truthy data = false
     ∧ PlantByID_patch cls t i data = (t, Ok no_data_provided))
  ∨ (is_Some (t !! i) ∧ truthy data = true
     ∧ PlantByID_patch cls t i data = (t, Ok patch_failed))
  ∨ (∃ r m t',
       t !! i = Some r ∧ data = VDict m
       ∧ existsb (shadows cls) (map_to_list m) = true
       ∧ commit_update t i (merged (load i r) m) = Ok t'
       ∧ PlantByID_patch cls t i data = (t', Ok patch_failed))
  ∨ (∃ r p' t',
       t !! i = Some r ∧ truthy data = true
       ∧ set_attrs cls (load i r) data = Ok (p', false)
       ∧ commit_update t i p' = Ok t'
       ∧ PlantByID_patch cls t i data =
           (t', Ok (make_response (jsonify (to_dict p')) 200))).
Proof.
  unfold PlantByID_patch, query_first. cbn zeta.
  destruct (t !! i) as [r|] eqn:Hi; cbn [fmap option_fmap option_map];
    [|by left].
  right. destruct (truthy data) eqn:Ht; cbn [negb]; [|by left].
  right. destruct (set_attrs cls (load i r) data) as [[p' b]|e] eqn:Hset;
    [|by left].
  destruct (commit_update t i p') as [t'|e] eqn:Hcommit; [|by left].
  right. destruct b.
  - left. destruct data as [| | | |s|l|m]; try done.
    + by apply set_from_str_Ok in Hset.
    + by apply set_from_list_Ok in Hset.
    + apply set_attrs_dict_Ok in Hset as (-> & Hsh & _).
      by exists r, m, t'.
  - right. by exists r, p', t'.
Qed.

(** X13: no exception leaves [PlantByID.patch]: it answers 200, 400, 404
    or 500. An id without record is answered 404 whatever the body, and
    an empty body for an existing record is answered 400; the answers 400
    and 404 leave the table as it was. The answer 500 leaves the table as
    it was, unless the body is a dict with a key that hides [to_dict]:
    the commit of line 149 has stored the updated record, and the call of
    line 150 is what raises. Every dict with the key [to_dict] whose
    assignments and commit succeed is answered 500 in this way. *)
Theorem patch_always_answers
    (cls : plant_class) (t : gmap Z row) (i : Z) (data : value) :
  ∃ resp,
    (PlantByID_patch cls t i data).2 = Ok resp
    ∧ status resp ∈ [200; 400; 404; 500]%Z
    ∧ (t !! i = None → resp = plant_not_found)
    ∧ (is_Some (t !! i) → truthy data = false → resp = no_data_provided)
    ∧ (status resp = 400%Z ∨ status resp = 404%Z →
         (PlantByID_patch cls t i data).1 = t)
    ∧ (status resp = 500%Z →
         (PlantByID_patch cls t i data).1 = t
         ∨ ∃ r m,
             t !! i = Some r ∧ data = VDict m
             ∧ existsb (shadows cls) (map_to_list m) = true
             ∧ commit_update t i (merged (load i r) m) =
                 Ok (PlantByID_patch cls t i data).1)
    ∧ (∀ r m t',
         t !! i = Some r → data = VDict m → is_Some (m !! "to_dict") →
         body_accepted cls m = true →
         commit_update t i (merged (load i r) m) = Ok t' →
         PlantByID_patch cls t i data = (t', Ok patch_failed)).
Proof.
  assert (∀ r m t',
            t !! i = Some r → data = VDict m → is_Some (m !! "to_dict") →
            body_accepted cls m = true →
            commit_update t i (merged (load i r) m) = Ok t' →
            PlantByID_patch cls t i data = (t', Ok patch_failed)) as Hlast.
  { intros r m t' Hi -> [v Hv] Hacc Hcommit.
    rewrite (patch_dict_outcome cls t i r m Hi (truthy_dict_lookup _ _ _ Hv)).
    by rewrite Hacc, Hcommit, (shadows_to_dict cls m v Hv). }
  destruct (patch_outcomes cls t i data)
    as [[Hi Hp]|[(Hi & Ht & Hp)|[(Hi & Ht & Hp)
       |[(r & m & t' & Hi & -> & Hsh & Hcommit & Hp)
        |(r & p' & t' & Hi & Ht & Hset & Hcommit & Hp)]]]];
    rewrite Hp in Hlast |- *; cbn [fst snd]; eexists; (split; [done|]);
    (split; [cbn; set_solver|]).
  - split; [done|]. split; [rewrite Hi; by intros [? ?]|].
    split; [done|]. split; [by left|]. done.
  - split; [destruct Hi; congruence|]. split; [done|]. split; [done|].
    split; [by left|]. done.
  - split; [destruct Hi; congruence|]. split; [congruence|].
    split; [done|]. split; [by left|]. done.
  - split; [congruence|].
    split.
    { intros _ Ht. simpl in Ht. destruct (size m) eqn:E; [|done].
      apply map_size_empty_iff in E. subst m.
      by rewrite map_to_list_empty in Hsh. }
    split; [by intros [[=]|[=]]|]. split; [|done].
    intros _. right. by exists r, m.
  - split; [congruence|]. split; [congruence|].
    split; [by intros [[=]|[=]]|]. split; [by intros [=]|]. done.
Qed.

Lemma patch_always_answers_witness :
  let t : gmap Z row := {[ 1%Z := fern ]} in
  let data := dict_of [("price", VInt 7); ("to_dict", VInt 1)] in
  PlantByID_patch no_inherited t 1 data =
    ({[ 1%Z := fern_repriced ]}, Ok patch_failed).
Proof.
  intros t data.
  destruct (patch_always_answers no_inherited t 1 data)
    as (resp & _ & _ & _ & _ & _ & _ & Hshadowed).
  apply (Hshadowed fern (list_to_map [("price", VInt 7); ("to_dict", VInt 1)]));
    [reflexivity | reflexivity | by eexists | reflexivity | reflexivity].
Defined.

Lemma merged_merged (p : Plant) (m : gmap string value) :
  merged (merged p m) m = merged p m.
Proof.
  unfold merged. cbn [plant_id plant_name plant_image plant_price plant_is_in_stock].
  f_equal; match goal with |- context [m !! ?k] => by destruct (m !! k) end.
Qed.

(** X14: a partial update that was answered 200 and does not change the
    id can be repeated: the same request on the resulting table is
    answered with the same response and leaves that table as it is. *)
Theorem patch_twice_is_patch_once
    (cls : plant_class) (t t' : gmap Z row) (i : Z) (m : gmap string value) (resp : response) :
  PlantByID_patch cls t i (VDict m) = (t', Ok resp) → status resp = 200%Z →
  rekeys (PatchPlant i (VDict m)) = false →
  PlantByID_patch cls t' i (VDict m) = (t', Ok resp).
Proof.
  intros Hpatch Hstatus Hrekeys.
  destruct (patch_200_cases _ _ _ _ _ _ Hpatch Hstatus)
    as (r & n & Hi & Ht & Hclean & Hn & _ & -> & ->).
  assert (n = i) as ->.
  { eapply set_attrs_keeps_id;
      [exact Hrekeys|by apply set_attrs_dict_clean|exact Hn]. }
  rewrite insert_delete_eq.
  rewrite (patch_dict cls _ i (row_of (merged (load i r) m)) m);
    [|apply lookup_insert_eq|done|done].
  rewrite (load_row_of _ _ Hn), merged_merged.
  unfold commit_update. rewrite Hn, bool_decide_eq_true_2 by done.
  by rewrite insert_insert_eq.
Qed.

Lemma patch_twice_is_patch_once_witness :
  PlantByID_patch no_inherited {[ 1%Z := fern_repriced ]} 1
    (dict_of [("price", VInt 7)]) =
    ({[ 1%Z := fern_repriced ]},
     Ok (make_response (jsonify (to_dict (load 1 fern_repriced))) 200)).
Proof.
  apply (patch_twice_is_patch_once no_inherited {[ 1%Z := fern ]} _ 1
           (list_to_map [("price", VInt 7)]) _); reflexivity.
Defined.

(** X15: after a partial update answered 200, a get by the id in the
    response returns the same record; when the update changed the id, a
    get by the old id is answered 404. *)
Theorem get_after_patch_returns_patched_record
    (cls : plant_class) (t t' : gmap Z row) (i : Z) (m : gmap string value) (resp : response) :
  PlantByID_patch cls t i (VDict m) = (t', Ok resp) → status resp = 200%Z →
  ∃ n p,
    payload resp = Json (to_dict p) ∧ plant_id p = VInt n
    ∧ PlantByID_get (Some t') n = (t', Ok resp)
    ∧ (n ≠ i → ∃ resp', PlantByID_get (Some t') i = (t', Ok resp')
                        ∧ status resp' = 404%Z).
Proof.
  intros Hpatch Hstatus.
  destruct (patch_200_cases _ _ _ _ _ _ Hpatch Hstatus)
    as (r & n & Hi & Ht & _ & Hn & Hfree & -> & ->).
  exists n, (merged (load i r) m). split; [done|]. split; [done|].
  unfold PlantByID_get, query_first. cbn [ensure_table]. split.
  - rewrite lookup_insert_eq. cbn [fmap option_fmap option_map].
    by rewrite (load_row_of _ _ Hn).
  - intros Hne. rewrite lookup_insert_ne, lookup_delete_eq by done.
    cbn [fmap option_fmap option_map]. by eexists.
Qed.

Lemma get_after_patch_returns_patched_record_witness :
  let t' : gmap Z row := {[ 2%Z := fern ]} in
  let resp := make_response (jsonify (to_dict (load 2 fern))) 200 in
  ∃ n p,
    payload resp = Json (to_dict p) ∧ plant_id p = VInt n
    ∧ PlantByID_get (Some t') n = (t', Ok resp)
    ∧ (n ≠ 1%Z → ∃ resp', PlantByID_get (Some t') 1 = (t', Ok resp')
                          ∧ status resp' = 404%Z).
Proof.
  intros t' resp.
  apply (get_after_patch_returns_patched_record no_inherited {[ 1%Z := fern ]} t' 1
           (list_to_map [("id", VInt 2)]) resp); reflexivity.
Defined.

(** ** Delete *)

(** X16: [PlantByID.delete] removes the record of the id and nothing
    else: the other records are as they were; it answers 204 with an
    empty body when the id had a record, and the table has one record
    less, and 404 when it had none. *)
Theorem delete_removes_only_the_record (t : gmap Z row) (i : Z) :
  let out := PlantByID_delete t i in
  out.1 = delete i t
  ∧ (∀ j, j ≠ i → out.1 !! j = t !! j)
  ∧ ∃ resp,
      out.2 = Ok resp
      ∧ (status resp = 204%Z ↔ is_Some (t !! i))
      ∧ (status resp = 404%Z ↔ t !! i = None)
      ∧ (status resp = 204%Z → payload resp = Text "" ∧ size t = S (size out.1)).
Proof.
  cbn zeta. destruct (t !! i) as [r|] eqn:Hi.
  - rewrite (delete_existing _ _ _ Hi). cbn [fst snd].
    split; [done|]. split; [intros j Hj; by apply lookup_delete_ne|].
    eexists. split; [done|]. cbn [status payload].
    split; [split; [by eexists|done]|]. split; [done|].
    intros _. split; [done|]. by eapply size_existing.
  - rewrite (delete_missing _ _ Hi). cbn [fst snd].
    split; [by rewrite delete_id|]. split; [done|].
    eexists. split; [done|].
    split; [split; [done|by intros [? ?]]|]. done.
Qed.

(** X17: a delete by the id that a create answered 201 returned is
    answered 204 and gives back the table that was there before the
    create. *)
Theorem create_then_delete_restores_table
    (dflt : value) (t t' : gmap Z row) (data : value) (resp : response) :
  Plants_post dflt t data = (t', Ok resp) → status resp = 201%Z →
  ∃ i r,
    payload resp = Json (dict_of [("success", VBool true);
                                  ("data", to_dict (load i r))])
    ∧ t !! i = None
    ∧ PlantByID_delete t' i = (t, Ok (make_response (Text "") 204)).
Proof.
  intros Hpost Hstatus.
  destruct (post_cases dflt t data) as [[_ Hno]|(m & name & image & price & Hrest)].
  { exfalso. apply (Hno resp); [by rewrite Hpost | done]. }
  destruct Hrest as (-> & _ & _ & _ & Heq). cbn zeta in Heq.
  rewrite Heq in Hpost. injection Hpost as <- <-.
  eexists (next_id t), _. split; [done|]. split; [apply next_id_fresh|].
  rewrite (delete_existing _ _ _ (lookup_insert_eq _ _ _)).
  by rewrite delete_insert_id by apply next_id_fresh.
Qed.

Lemma create_then_delete_restores_table_witness :
  ∃ i r,
    payload (make_response
               (jsonify (dict_of [("success", VBool true);
                                  ("data", to_dict (load 1 fern))])) 201)
      = Json (dict_of [("success", VBool true); ("data", to_dict (load i r))])
    ∧ (∅ : gmap Z row) !! i = None
    ∧ PlantByID_delete {[ 1%Z := fern ]} i = (∅, Ok (make_response (Text "") 204)).
Proof.
  apply (create_then_delete_restores_table (VBool true) ∅ {[ 1%Z := fern ]}
           fern_body _); reflexivity.
Defined.

(** X18: after a delete of an id, whatever its answer, a get by that id
    is answered 404 with the message that names the id. *)
Theorem get_after_delete_is_404 (t : gmap Z row) (i : Z) :
  let t' := (PlantByID_delete t i).1 in
  PlantByID_get (Some t') i =
    (t', Ok (make_response
               (jsonify (dict_of
                  [("error", VStr ("Plant with id " ++ str_of_int i ++ " not found"))]))
               404)).
Proof.
  cbn zeta. unfold PlantByID_get, query_first. cbn [ensure_table].
  assert ((PlantByID_delete t i).1 !! i = None) as ->; [|done].
  destruct (t !! i) as [r|] eqn:Hi.
  - rewrite (delete_existing _ _ _ Hi). apply lookup_delete_eq.
  - by rewrite (delete_missing _ _ Hi).
Qed.

Lemma row_of_load i (r : row) : row_of (load i r) = r.
Proof. by destruct r. Qed.

(** X19: a partial update whose body is not a dict never changes the
    table; when the record exists and the body is a non-zero number or
    [true], the iteration of line 145 raises and the answer is 500. *)
Theorem patch_non_dict_body_changes_nothing
    (cls : plant_class) (t : gmap Z row) (i : Z) (data : value) :
  is_dict data = false →
  (PlantByID_patch cls t i data).1 = t
  ∧ (is_Some (t !! i) → truthy data = true → is_scalar data = true →
       (PlantByID_patch cls t i data).2 = Ok patch_failed).
Proof.
  intros Hd. split.
  - destruct (patch_cases cls t i data)
      as [->|(r & p' & b & n & Hi & Hset & Hn & _ & ->)]; [done|].
    assert (p' = load i r) as ->.
    { destruct data; try done.
      - by apply set_from_str_Ok in Hset as [= -> _].
      - by apply set_from_list_Ok in Hset as [= -> _]. }
    injection Hn as <-.
    by rewrite insert_delete_eq, row_of_load, insert_id.
  - intros [r Hi] Ht Hs. unfold PlantByID_patch, query_first. rewrite Hi.
    cbn [fmap option_fmap option_map]. rewrite Ht. cbn [negb].
    by destruct data.
Qed.

Lemma patch_non_dict_body_changes_nothing_witness :
  let t : gmap Z row := {[ 1%Z := fern ]} in
  (PlantByID_patch no_inherited t 1 (VList [VStr "price"; VInt 7])).1 = t
  ∧ (is_Some (t !! 1%Z) → truthy (VList [VStr "price"; VInt 7]) = true →
     is_scalar (VList [VStr "price"; VInt 7]) = true →
       (PlantByID_patch no_inherited t 1 (VList [VStr "price"; VInt 7])).2
       = Ok patch_failed).
Proof.
  intros t.
  apply (patch_non_dict_body_changes_nothing no_inherited t 1
           (VList [VStr "price"; VInt 7])).
  reflexivity.
Defined.

(** X20: on a dict, in both modes, the validator raises exactly when the
    body has a name that is not a string, and what it raises is
    [AttributeError]; on every other dict it returns. *)
Theorem validate_dict_raises_iff_name_not_str
    (m : gmap string value) (partial : bool) :
  ((∃ e, validate_plant_data (VDict m) partial = Raise e)
   ↔ ∃ v, m !! "name" = Some v ∧ is_str v = false)
  ∧ (∀ e, validate_plant_data (VDict m) partial = Raise e → e = AttributeError).
Proof.
  rewrite validate_dict_steps. unfold name_step.
  destruct (m !! "name") as [v|]; cbn [bind].
  - destruct v; cbn [bind]; split;
      first [ by intros e [= <-]
            | split; [intros _; by eexists | intros _; by eexists]
            | intros e [=]
            | split; [by intros [e [=]] | by intros (v' & [= <-] & [=])] ].
  - split; [|by intros e [=]].
    split; [by intros [e [=]] | by intros (v' & [=] & _)].
Qed.
